(** * SlideGauge: the analysis engine of [slidegauge.py]

    A shallow embedding of the fence-aware slide splitter, the inline
    override parser, the feature scanner, the colour model, the rule
    registry, the scoring engine and the content cache, followed by the
    properties the specification states about them.

    Conventions.
    - A Python [str] is a [string]; a character is read as a code point
      below 256, so the whitespace class is the one [str.strip] and the
      regular expression class [\s] use on that range.
    - A Python [int] is a [Z], a [float] is a primitive binary64 [float].
    - A [dict] is an insertion-ordered association list ([Dict]).
    - An exception is a value of [exn] in the [result] monad. *)

From Stdlib Require Import ZArith List String Ascii Bool Lia Floats.
From Stdlib Require Import Permutation Sorted.
Import ListNotations.

Set Warnings "-inexact-float,-register-all".

Local Open Scope string_scope.
Local Open Scope list_scope.

(* ====================================================================== *)
(** * Python built-ins on strings *)
(* ====================================================================== *)

Module Py.

(** Line feed, the separator of [str.split] on lines and of the join. *)
Definition nl : ascii := "010"%char.

(** [str.isspace] on one character: 0x09-0x0D, 0x1C-0x20, 0x85, 0xA0. *)
Definition is_space (c : ascii) : bool :=
  let n := nat_of_ascii c in
  (((9 <=? n) && (n <=? 13)) || ((28 <=? n) && (n <=? 32))
   || (n =? 133) || (n =? 160))%nat.

(** [s.lstrip()] *)
Fixpoint lstrip (s : string) : string :=
  match s with
  | EmptyString => EmptyString
  | String c s' => if is_space c then lstrip s' else s
  end.

(** [s.rstrip()] *)
Fixpoint rstrip (s : string) : string :=
  match s with
  | EmptyString => EmptyString
  | String c s' =>
      match rstrip s' with
      | EmptyString => if is_space c then EmptyString else String c EmptyString
      | r => String c r
      end
  end.

(** [s.strip()] *)
Definition strip (s : string) : string := rstrip (lstrip s).

(** [s.startswith(p)] *)
Definition startswith (s p : string) : bool := String.prefix p s.

(** [sub in s] *)
Fixpoint contains (sub s : string) : bool :=
  String.prefix sub s
  || match s with
     | EmptyString => false
     | String _ s' => contains sub s'
     end.

(** [sep.join(parts)] for a one-character separator. *)
Fixpoint join (sep : ascii) (parts : list string) : string :=
  match parts with
  | [] => EmptyString
  | [p] => p
  | p :: rest => p ++ String sep (join sep rest)
  end.

(** [s.split(sep)] for a one-character separator: never empty. *)
Fixpoint split (sep : ascii) (s : string) : list string :=
  match s with
  | EmptyString => [EmptyString]
  | String c s' =>
      if Ascii.eqb c sep then EmptyString :: split sep s'
      else match split sep s' with
           | [] => [String c EmptyString]
           | p :: ps => String c p :: ps
           end
  end.

(** Truth value of a [str]: non-empty. *)
Definition truthy (s : string) : bool :=
  match s with EmptyString => false | _ => true end.

(** [s.endswith(p)] *)
Fixpoint endswith (s p : string) : bool :=
  (s =? p)
  || match s with
     | EmptyString => false
     | String _ s' => endswith s' p
     end.

(** [s[:-1]] *)
Fixpoint drop_last (s : string) : string :=
  match s with
  | EmptyString => EmptyString
  | String _ EmptyString => EmptyString
  | String c s' => String c (drop_last s')
  end.

(** [s[n:]] *)
Fixpoint drop (n : nat) (s : string) : string :=
  match n, s with
  | O, _ => s
  | S _, EmptyString => EmptyString
  | S n', String _ s' => drop n' s'
  end.

(** [s[s.find(sub) + k:]] for a [sub] that occurs in [s]: the text from
    [k] characters past the start of the first occurrence. *)
Fixpoint after_find (sub : string) (k : nat) (s : string) : string :=
  if String.prefix sub s then drop k s
  else match s with
       | EmptyString => EmptyString
       | String _ s' => after_find sub k s'
       end.

(** [s.split(sep)[0]]: the text before the first occurrence of [sep]. *)
Fixpoint before (sep : string) (s : string) : string :=
  if String.prefix sep s then EmptyString
  else match s with
       | EmptyString => EmptyString
       | String c s' => String c (before sep s')
       end.

(** [s.lstrip(chars)] and [s.rstrip(chars)] for a set of characters. *)
Definition mem_chars (chars : string) (c : ascii) : bool :=
  existsb (Ascii.eqb c) (list_ascii_of_string chars).

Fixpoint lstrip_chars (chars : string) (s : string) : string :=
  match s with
  | EmptyString => EmptyString
  | String c s' => if mem_chars chars c then lstrip_chars chars s' else s
  end.

Fixpoint rstrip_chars (chars : string) (s : string) : string :=
  match s with
  | EmptyString => EmptyString
  | String c s' =>
      match rstrip_chars chars s' with
      | EmptyString =>
          if mem_chars chars c then EmptyString else String c EmptyString
      | r => String c r
      end
  end.

(** [s.split(None, 1)]: the first whitespace-delimited word and, when
    something follows the whitespace after it, the rest. *)
Fixpoint take_word (s : string) : string * string :=
  match s with
  | EmptyString => (EmptyString, EmptyString)
  | String c s' =>
      if is_space c then (EmptyString, s)
      else let (w, r) := take_word s' in (String c w, r)
  end.

Definition split_ws_1 (s : string) : list string :=
  match lstrip s with
  | EmptyString => []
  | s1 =>
      let (w, r) := take_word s1 in
      match lstrip r with
      | EmptyString => [w]
      | rest => [w; rest]
      end
  end.

(** [len(s)] *)
Definition len (s : string) : Z := Z.of_nat (String.length s).

(** [str(n)] for an [int]. *)
Definition digit_char (d : Z) : ascii := ascii_of_nat (48 + Z.to_nat d).

Fixpoint digits (fuel : nat) (n : Z) (acc : string) : string :=
  match fuel with
  | O => acc
  | S fuel' =>
      let acc' := String (digit_char (n mod 10)) acc in
      if n <? 10 then acc' else digits fuel' (n / 10) acc'
  end%Z.

Definition str_of_nonneg (n : Z) : string :=
  digits (S (Z.to_nat (Z.log2 n))) n EmptyString.

Definition str_of_Z (n : Z) : string :=
  if (n <? 0)%Z then String "-" (str_of_nonneg (- n)) else str_of_nonneg n.

(** Exceptions the modelled code can raise.  [OutsideModel] marks a
    configuration value whose Python type the model does not cover (a
    non-integer weight or limit, a non-float contrast threshold). *)
Inductive exn : Type :=
| KeyError
| TypeError
| ValueError
| AttributeError
| OutsideModel.

Inductive result (A : Type) : Type :=
| Ok (a : A)
| Raise (e : exn).
Arguments Ok {A} a.
Arguments Raise {A} e.

Definition bind {A B : Type} (r : result A) (k : A -> result B) : result B :=
  match r with
  | Ok a => k a
  | Raise e => Raise e
  end.

End Py.

Declare Scope py_scope.
Delimit Scope py_scope with py.
Notation "x <- c ;; k" := (Py.bind c (fun x => k))
  (at level 61, c at next level, right associativity) : py_scope.
Notation "' pat <- c ;; k" := (Py.bind c (fun x => match x with pat => k end))
  (at level 61, pat pattern, c at next level, right associativity) : py_scope.

(* ====================================================================== *)
(** * Dictionaries and JSON values *)
(* ====================================================================== *)

(** A [dict] with [str] keys, in insertion order. *)
Module Dict.

Definition t (V : Type) : Type := list (string * V).

(** [d.get(k)] *)
Fixpoint get {V : Type} (d : t V) (k : string) : option V :=
  match d with
  | [] => None
  | (k', v) :: d' => if k' =? k then Some v else get d' k
  end.

(** [d[k] = v]: an existing key keeps its place, a new key goes last. *)
Fixpoint set {V : Type} (d : t V) (k : string) (v : V) : t V :=
  match d with
  | [] => [(k, v)]
  | (k', v') :: d' =>
      if k' =? k then (k', v) :: d' else (k', v') :: set d' k v
  end.

(** [k in d] *)
Definition mem {V : Type} (d : t V) (k : string) : bool :=
  match get d k with Some _ => true | None => false end.

End Dict.

Module Json.
Import Py.

(** What [json.loads] returns. *)
Inductive json : Type :=
| JNull
| JBool (b : bool)
| JInt (z : Z)
| JFloat (f : float)
| JStr (s : string)
| JList (l : list json)
| JDict (d : list (string * json)).

(** [v[k]] for a string subscript. *)
Definition getitem (v : json) (k : string) : result json :=
  match v with
  | JDict d =>
      match Dict.get d k with
      | Some x => Ok x
      | None => Raise KeyError
      end
  | _ => Raise TypeError
  end.

(** The loop of [deep_merge] over [b.items()], [a] being a dictionary. *)
Fixpoint merge_into (a : Dict.t json) (b : json) {struct b} : Dict.t json :=
  match b with
  | JDict items =>
      (fix loop (items : list (string * json)) (a : Dict.t json)
         : Dict.t json :=
         match items with
         | [] => a
         | (k, v) :: rest =>
             loop rest
               (match v, Dict.get a k with
                | JDict _, Some (JDict ak) =>
                    Dict.set a k (JDict (merge_into ak v))
                | _, _ => Dict.set a k v
                end)
         end) items a
  | _ => a
  end.

(** [deep_merge(a, b)]: [b.items()] fails unless [b] is a dictionary. *)
Definition deep_merge (a : Dict.t json) (b : json) : result (Dict.t json) :=
  match b with
  | JDict _ => Ok (merge_into a b)
  | _ => Raise AttributeError
  end.

End Json.

(* ====================================================================== *)
(** * ColorModel: [rel_lum], [contrast_ratio] *)
(* ====================================================================== *)

Module Color.

Definition rgb : Type := (Z * Z * Z)%type.

(** The conversion of a channel to [float] in [x/255.0]; exact on the
    channel values [parse_color] returns (between -255 and 255). *)
Definition float_of_int (z : Z) : float :=
  if (z <? 0)%Z then PrimFloat.opp (of_uint63 (Uint63.of_Z (- z)))
  else of_uint63 (Uint63.of_Z z).

Definition rel_lum (c : rgb) : float :=
  let '(r0, g0, b0) := c in
  let r := (float_of_int r0 / 255.0)%float in
  let g := (float_of_int g0 / 255.0)%float in
  let b := (float_of_int b0 / 255.0)%float in
  (0.2126 * r + 0.7152 * g + 0.0722 * b)%float.

Definition white : rgb := (255, 255, 255)%Z.

Definition contrast_ratio (c : rgb) (bg : rgb) : float :=
  let L1 := rel_lum c in
  let L2 := rel_lum bg in
  let '(hi, lo) := if (L2 <? L1)%float then (L1, L2) else (L2, L1) in
  ((hi + 0.05) / (lo + 0.05))%float.

(** [f"{x:.2f}"]: the decimal expansion rounded to two places, ties to
    even on the exact binary value. *)
Definition hundredths (m : positive) (e : Z) : Z :=
  let n := (Z.pos m * 100)%Z in
  if (0 <=? e)%Z then (n * 2 ^ e)%Z
  else
    let d := (2 ^ (- e))%Z in
    let q := (n / d)%Z in
    let r := (n mod d)%Z in
    if (d <? 2 * r)%Z then (q + 1)%Z
    else if (2 * r =? d)%Z then (if Z.even q then q else q + 1)%Z
    else q.

Definition two_digits (n : Z) : string :=
  String (Py.digit_char (n / 10)) (String (Py.digit_char (n mod 10)) EmptyString).

Definition sign_prefix (s : bool) (body : string) : string :=
  if s then String "-" body else body.

Definition format_2f (x : float) : string :=
  match Prim2SF x with
  | S754_zero s => sign_prefix s "0.00"
  | S754_infinity s => sign_prefix s "inf"
  | S754_nan => "nan"
  | S754_finite s m e =>
      let h := hundredths m e in
      sign_prefix s (Py.str_of_Z (h / 100) ++ "." ++ two_digits (h mod 100))
  end.

End Color.

(* ====================================================================== *)
(** * Data model: [Finding], [Slide], [SlideResult] *)
(* ====================================================================== *)

Module Model.
Import Json.

Record Finding : Type := mkFinding {
  rule : string;
  severity : string;
  message : string;
  deduction : Z;
  patch : list json
}.

(** [Finding(rule, severity, message, deduction=d)]: [patch] defaults to
    the empty tuple. *)
Definition finding (r sev msg : string) (d : Z) : Finding :=
  mkFinding r sev msg d [].

(** The [metrics] dictionary of [scan_slide], one field per key. *)
Record Metrics : Type := mkMetrics {
  title_length : Z;
  content_chars : Z;
  content_chars_adjusted : Z;
  bullets : Z;
  lines : Z;
  code_blocks : list (Z * string);
  has_table : bool;
  has_chart : bool;
  is_exercise : bool;
  images : list (string * string);
  colors : list (string * Color.rgb * float);
  min_contrast : option float;
  unique_colors : Z;
  bare_urls : Z
}.

(** The dictionary [parse_inline_overrides] returns. *)
Record Overrides : Type := mkOverrides {
  disabled : list string;
  rules : Dict.t json
}.

Record Slide : Type := mkSlide {
  index : nat;
  uuid : string;
  title : string;
  body : string;
  metrics : Metrics;
  overrides : Overrides
}.

Record SlideResult : Type := mkSlideResult {
  r_index : nat;
  r_uuid : string;
  r_title : string;
  r_body : string;
  r_metrics : Metrics;
  diagnostics : list Finding;
  score : Z;
  bucket_scores : Dict.t Z
}.

End Model.

(* ====================================================================== *)
(** * Configuration: [DEFAULTS] *)
(* ====================================================================== *)

Module Config.
Import Json.

Definition strs (l : list string) : json := JList (map JStr l).

Definition DEFAULTS : Dict.t json :=
  [ ("threshold", JInt 70);
    ("pass_rate", JFloat 0.8);
    ("rules", JDict
      [ ("title", JDict
          [ ("required", JBool true); ("max_main", JInt 35);
            ("max_sub", JInt 50) ]);
        ("content", JDict
          [ ("max_chars", JInt 350); ("min_chars", JInt 50);
            ("exercise_max_chars", JInt 450); ("max_lines", JInt 15);
            ("max_bullets", JInt 6); ("max_bullet_len", JInt 80) ]);
        ("code", JDict
          [ ("max_simple", JInt 10); ("max_complex", JInt 5);
            ("max_line_len", JInt 100) ]);
        ("special", JDict
          [ ("table_char_eq", JInt 100); ("chart_char_eq", JInt 100);
            ("code_char_eq", JInt 150) ]);
        ("color", JDict
          [ ("min_contrast_warn", JFloat 4.5);
            ("min_contrast_error", JFloat 3.0);
            ("max_colors", JInt 6) ]) ]);
    ("weights", JDict
      [ ("title/required", JInt 20);
        ("title/too_long", JInt 10);
        ("content/too_long", JInt 15);
        ("content/too_short", JInt 5);
        ("bullets/too_many", JInt 10);
        ("bullets/too_long", JInt 5);
        ("code/too_long", JInt 8);
        ("code/long_line", JInt 5);
        ("lines/too_many", JInt 10);
        ("accessibility/alt_required", JInt 8);
        ("links/bare_urls", JInt 3);
        ("structure/duplicate_titles", JInt 5);
        ("meta/theme_required", JInt 5);
        ("color/low_contrast", JInt 10);
        ("color/too_many", JInt 5);
        ("color/unlabeled", JInt 5) ]);
    ("buckets", JDict
      [ ("content", strs ["title/*"; "content/*"; "bullets/*"; "lines/*";
                          "structure/*"]);
        ("code", strs ["code/*"]);
        ("layout", strs ["meta/*"; "structure/*"]);
        ("a11y", strs ["accessibility/*"; "links/*"]);
        ("color", strs ["color/*"]) ]) ].

(** Insertion of a key into a key-sorted list of items. *)
Fixpoint insert_item (kv : string * json) (l : list (string * json))
  : list (string * json) :=
  match l with
  | [] => [kv]
  | kv' :: l' =>
      if (fst kv <=? fst kv')%string then kv :: l
      else kv' :: insert_item kv l'
  end.

(** [json.loads(json_dumps_canonical(obj))]: a copy of [obj] with the
    keys of every dictionary in sorted order. *)
Fixpoint clone (v : json) : json :=
  match v with
  | JList l => JList (map clone l)
  | JDict d =>
      JDict ((fix items (d : list (string * json)) : list (string * json) :=
                match d with
                | [] => []
                | (k, x) :: d' => insert_item (k, clone x) (items d')
                end) d)
  | _ => v
  end.

Definition clone_dict (d : Dict.t json) : Dict.t json :=
  match clone (JDict d) with
  | JDict d' => d'
  | _ => d
  end.

(** [cfg["rules"][group][key]] *)
Definition rule_param (cfg : Dict.t json) (group key : string)
  : Py.result json :=
  (rs <- getitem (JDict cfg) "rules" ;;
   g <- getitem rs group ;;
   getitem g key)%py.

(** An integer limit at the point where the code compares it with a
    count: an [int] is used as it is, a [str], [None], [list] or [dict]
    makes the comparison raise [TypeError]. *)
Definition as_limit (v : json) : Py.result Z :=
  match v with
  | JInt z => Py.Ok z
  | JFloat _ | JBool _ => Py.Raise Py.OutsideModel
  | _ => Py.Raise Py.TypeError
  end.

(** A contrast threshold at the point where the code compares it with
    the minimum contrast. *)
Definition as_threshold (v : json) : Py.result float :=
  match v with
  | JFloat f => Py.Ok f
  | JInt _ | JBool _ => Py.Raise Py.OutsideModel
  | _ => Py.Raise Py.TypeError
  end.

(** [cfg["weights"][id]], stored in [Finding.deduction : int]. *)
Definition weight (cfg : Dict.t json) (id : string) : Py.result Z :=
  (ws <- getitem (JDict cfg) "weights" ;;
   w <- getitem ws id ;;
   match w with
   | JInt z => Py.Ok z
   | _ => Py.Raise Py.OutsideModel
   end)%py.

End Config.

(* ====================================================================== *)
(** * RuleRegistry: the registered rules, in registration order *)
(* ====================================================================== *)

Module Rules.
Import Py Json Model Config.
Local Open Scope py_scope.
Local Open Scope Z_scope.

(** A rule class: its class attributes and its [check] method. *)
Record Rule : Type := mkRule {
  id : string;
  rule_severity : string;
  bucket : string;
  check : Slide -> Dict.t json -> result (list Finding)
}.

(** [self.id not in slide.overrides.get("disabled", ())] *)
Definition enabled (rid : string) (s : Slide) : bool :=
  negb (existsb (String.eqb rid) (disabled (overrides s))).

(** [(Finding(self.id, sev, msg, deduction=cfg["weights"][self.id]),)] *)
Definition report (cfg : Dict.t json) (rid sev msg : string)
  : result (list Finding) :=
  w <- weight cfg rid ;; Ok [finding rid sev msg w].

Definition TitleRequired : Rule :=
  let id := "title/required" in
  mkRule id "error" "content" (fun s cfg =>
    if (title_length (metrics s) =? 0) && enabled id s then
      report cfg id "error" "Slide missing title - add # Title or ## Title"
    else Ok []).

Definition TitleTooLong : Rule :=
  let id := "title/too_long" in
  mkRule id "warning" "content" (fun s cfg =>
    max_len <- rule_param cfg "title" "max_main" ;;
    let n := title_length (metrics s) in
    m <- as_limit max_len ;;
    if (m <? n) && enabled id s then
      let excess := n - m in
      report cfg id "warning"
        ("Title length " ++ str_of_Z n ++ " > max " ++ str_of_Z m
         ++ " (shorten by " ++ str_of_Z excess ++ " chars)")
    else Ok []).

Definition ContentTooLong : Rule :=
  let id := "content/too_long" in
  mkRule id "warning" "content" (fun s cfg =>
    rs <- (r <- getitem (JDict cfg) "rules" ;; getitem r "content") ;;
    limit <- (if is_exercise (metrics s)
              then getitem rs "exercise_max_chars"
              else getitem rs "max_chars") ;;
    let val := content_chars_adjusted (metrics s) in
    m <- as_limit limit ;;
    if (m <? val) && enabled id s then
      let excess := val - m in
      report cfg id "warning"
        ("Adjusted content " ++ str_of_Z val ++ " > max " ++ str_of_Z m
         ++ " (reduce by ~" ++ str_of_Z excess
         ++ " chars or split into 2 slides)")
    else Ok []).

Definition ContentTooShort : Rule :=
  let id := "content/too_short" in
  mkRule id "info" "content" (fun s cfg =>
    min_len <- rule_param cfg "content" "min_chars" ;;
    let val := content_chars (metrics s) in
    if 0 <? val then
      m <- as_limit min_len ;;
      if (val <? m) && enabled id s then
        let needed := m - val in
        report cfg id "info"
          ("Content " ++ str_of_Z val ++ " < min " ++ str_of_Z m
           ++ " (add ~" ++ str_of_Z needed ++ " chars)")
      else Ok []
    else Ok []).

Definition BulletsTooMany : Rule :=
  let id := "bullets/too_many" in
  mkRule id "warning" "content" (fun s cfg =>
    max_bullets <- rule_param cfg "content" "max_bullets" ;;
    let val := bullets (metrics s) in
    m <- as_limit max_bullets ;;
    if (m <? val) && enabled id s then
      let excess := val - m in
      report cfg id "warning"
        (str_of_Z val ++ " bullets > max " ++ str_of_Z m
         ++ " (remove " ++ str_of_Z excess ++ " or split slide)")
    else Ok []).

Definition LinesTooMany : Rule :=
  let id := "lines/too_many" in
  mkRule id "warning" "content" (fun s cfg =>
    max_lines <- rule_param cfg "content" "max_lines" ;;
    let val := lines (metrics s) in
    m <- as_limit max_lines ;;
    if (m <? val) && enabled id s then
      report cfg id "warning"
        (str_of_Z val ++ " lines > max " ++ str_of_Z m
         ++ " (condense or split into 2 slides)")
    else Ok []).

Definition ColorLowContrast : Rule :=
  let id := "color/low_contrast" in
  mkRule id "error" "color" (fun s cfg =>
    warn_thresh <- rule_param cfg "color" "min_contrast_warn" ;;
    err_thresh <- rule_param cfg "color" "min_contrast_error" ;;
    match min_contrast (metrics s) with
    | None => Ok []
    | Some mc =>
        if negb (enabled id s) then Ok []
        else
          err <- as_threshold err_thresh ;;
          if (mc <? err)%float then
            w <- weight cfg id ;;
            Ok [finding id "error"
                  ("Contrast " ++ Color.format_2f mc ++ " below minimum "
                   ++ Color.format_2f err ++ " (use darker/lighter colors)")
                  w]
          else
            warn <- as_threshold warn_thresh ;;
            if (mc <? warn)%float then
              w <- weight cfg id ;;
              Ok [finding id "warning"
                    ("Contrast " ++ Color.format_2f mc
                     ++ " below recommended " ++ Color.format_2f warn
                     ++ " (increase for better readability)")
                    (w / 2)]
            else Ok []
    end).

Definition ColorTooMany : Rule :=
  let id := "color/too_many" in
  mkRule id "warning" "color" (fun s cfg =>
    max_colors <- rule_param cfg "color" "max_colors" ;;
    let n := unique_colors (metrics s) in
    m <- as_limit max_colors ;;
    if (m <? n) && enabled id s then
      let excess := n - m in
      report cfg id "warning"
        (str_of_Z n ++ " unique colors > max " ++ str_of_Z m
         ++ " (reduce by " ++ str_of_Z excess ++ ")")
    else Ok []).

Definition AltRequired : Rule :=
  let id := "accessibility/alt_required" in
  mkRule id "error" "a11y" (fun s cfg =>
    let missing_alt :=
      map snd (filter (fun im => negb (truthy (strip (fst im))))
                      (images (metrics s))) in
    match missing_alt with
    | [] => Ok []
    | _ =>
        if enabled id s then
          report cfg id "error"
            (str_of_Z (Z.of_nat (List.length missing_alt))
             ++ " images missing alt text (add descriptions in ![alt text](url))")
        else Ok []
    end).

Definition BareUrls : Rule :=
  let id := "links/bare_urls" in
  mkRule id "info" "a11y" (fun s cfg =>
    let bare_count := bare_urls (metrics s) in
    if (0 <? bare_count) && enabled id s then
      report cfg id "info"
        (str_of_Z bare_count ++ " bare URLs (use [link text](url) format)")
    else Ok []).

Definition complex_languages : list string :=
  ["python"; "javascript"; "java"; "cpp"].

(** The loop of [CodeTooLong.check] over [code_blocks]. *)
Fixpoint code_issues (max_simple max_complex : json)
         (blocks : list (Z * string)) : result (list string) :=
  match blocks with
  | [] => Ok []
  | (n, lang) :: rest =>
      let max_allowed :=
        if existsb (String.eqb lang) complex_languages
        then max_complex else max_simple in
      m <- as_limit max_allowed ;;
      issues <- code_issues max_simple max_complex rest ;;
      if m <? n then
        let excess := n - m in
        Ok ((lang ++ " code " ++ str_of_Z n ++ " lines > max "
             ++ str_of_Z m ++ " (trim " ++ str_of_Z excess
             ++ " lines or split)")%string :: issues)
      else Ok issues
  end.

Definition CodeTooLong : Rule :=
  let id := "code/too_long" in
  mkRule id "warning" "code" (fun s cfg =>
    max_simple <- rule_param cfg "code" "max_simple" ;;
    max_complex <- rule_param cfg "code" "max_complex" ;;
    issues <- code_issues max_simple max_complex (code_blocks (metrics s)) ;;
    match issues with
    | [] => Ok []
    | _ =>
        if enabled id s then
          report cfg id "warning" (String.concat "; " issues)
        else Ok []
    end).

Definition REGISTRY : list Rule :=
  [ TitleRequired; TitleTooLong; ContentTooLong; ContentTooShort;
    BulletsTooMany; LinesTooMany; ColorLowContrast; ColorTooMany;
    AltRequired; BareUrls; CodeTooLong ].

End Rules.

(* ====================================================================== *)
(** * ScoringEngine: [run_rules_on_slide], [check_duplicate_titles],
      [evaluate_all] *)
(* ====================================================================== *)

Module Engine.
Import Py Json Model Config Rules.
Local Open Scope py_scope.
Local Open Scope Z_scope.

(** The sort key [(f.rule, f.message)], compared as a tuple of [str]. *)
Definition key_le (a b : Finding) : bool :=
  match String.compare (rule a) (rule b) with
  | Lt => true
  | Eq => (message a <=? message b)%string
  | Gt => false
  end.

(** [sorted(diags, key=...)]: a stable sort. *)
Fixpoint insert (x : Finding) (l : list Finding) : list Finding :=
  match l with
  | [] => [x]
  | y :: l' => if key_le x y then x :: l else y :: insert x l'
  end.

Definition sorted (l : list Finding) : list Finding :=
  fold_right insert [] l.

(** [sum(max(0, f.deduction) for f in diags)] *)
Definition total_deduction (diags : list Finding) : Z :=
  fold_left (fun acc f => acc + Z.max 0 (deduction f)) diags 0.

(** [max(0, min(100, 100 - total_deduction))] *)
Definition total_score (diags : list Finding) : Z :=
  Z.max 0 (Z.min 100 (100 - total_deduction diags)).

(** What [for pattern in patterns] iterates over. *)
Definition iterate (patterns : json) : result (list json) :=
  match patterns with
  | JList l => Ok l
  | JDict d => Ok (map (fun kv => JStr (fst kv)) d)
  | JStr s =>
      Ok (map (fun c => JStr (String c EmptyString)) (list_ascii_of_string s))
  | _ => Raise TypeError
  end.

(** The loop over the patterns for one finding: [true] when it leaves
    through a [break], that is when some pattern matches. *)
Fixpoint first_match (r : string) (patterns : list json) : result bool :=
  match patterns with
  | [] => Ok false
  | JStr p :: rest =>
      if endswith p "*" then
        if startswith r (drop_last p) then Ok true else first_match r rest
      else if (r =? p)%string then Ok true
      else first_match r rest
  | _ :: _ => Raise AttributeError
  end.

(** The loop [for finding in diags] of one bucket. *)
Fixpoint bucket_deduction (patterns : json) (diags : list Finding) (acc : Z)
  : result Z :=
  match diags with
  | [] => Ok acc
  | f :: rest =>
      ps <- iterate patterns ;;
      hit <- first_match (rule f) ps ;;
      bucket_deduction patterns rest
        (if hit then acc + Z.max 0 (deduction f) else acc)
  end.

(** [max(0, 100 - deduction)] *)
Definition bucket_score (patterns : json) (diags : list Finding) : result Z :=
  d <- bucket_deduction patterns diags 0 ;;
  Ok (Z.max 0 (100 - d)).

(** [for name, patterns in buckets.items(): bucket_scores[name] = ...] *)
Fixpoint score_buckets (items : list (string * json)) (diags : list Finding)
         (bucket_scores : Dict.t Z) : result (Dict.t Z) :=
  match items with
  | [] => Ok bucket_scores
  | (name, patterns) :: rest =>
      v <- bucket_score patterns diags ;;
      score_buckets rest diags (Dict.set bucket_scores name v)
  end.

(** [cfg["buckets"].items()] *)
Definition bucket_items (cfg : Dict.t json) : result (list (string * json)) :=
  b <- getitem (JDict cfg) "buckets" ;;
  match b with
  | JDict d => Ok d
  | _ => Raise AttributeError
  end.

(** The configuration a slide is evaluated under. *)
Definition effective_config (slide : Slide) (cfg : Dict.t json)
  : Dict.t json :=
  let effective := clone_dict cfg in
  match rules (overrides slide) with
  | [] => effective
  | r => merge_into effective (JDict r)
  end.

(** The loop over [REGISTRY]. *)
Fixpoint run_registry (registry : list Rule) (slide : Slide)
         (effective : Dict.t json) : result (list Finding) :=
  match registry with
  | [] => Ok []
  | r :: rest =>
      if existsb (String.eqb (id r)) (disabled (overrides slide)) then
        run_registry rest slide effective
      else
        fs <- check r slide effective ;;
        more <- run_registry rest slide effective ;;
        Ok (fs ++ more)%list
  end.

Definition run_rules_on_slide (slide : Slide) (cfg : Dict.t json)
  : result (list Finding * Z * Dict.t Z) :=
  let effective := effective_config slide cfg in
  diags <- run_registry REGISTRY slide effective ;;
  let diags := sorted diags in
  let total := total_score diags in
  items <- bucket_items effective ;;
  bucket_scores <- score_buckets items diags [] ;;
  Ok (diags, total, bucket_scores).

(** [d.setdefault(k, []).append(v)] on a dictionary in insertion order. *)
Fixpoint append_to {K V : Type} (eqb : K -> K -> bool)
         (d : list (K * list V)) (k : K) (v : V) : list (K * list V) :=
  match d with
  | [] => [(k, [v])]
  | (k', vs) :: d' =>
      if eqb k' k then (k', (vs ++ [v])%list) :: d'
      else (k', vs) :: append_to eqb d' k v
  end.

Fixpoint lookup {K V : Type} (eqb : K -> K -> bool) (d : list (K * V)) (k : K)
  : option V :=
  match d with
  | [] => None
  | (k', v) :: d' => if eqb k' k then Some v else lookup eqb d' k
  end.

(** The first loop of [check_duplicate_titles]. *)
Definition title_counts (slides : list Slide) : list (string * list nat) :=
  fold_left (fun tc s =>
               if truthy (title s) then append_to String.eqb tc (title s) (index s)
               else tc)
            slides [].

Definition duplicate_finding (title : string) (count : nat) : Finding :=
  finding "structure/duplicate_titles" "warning"
          ("Duplicate title '" ++ title ++ "' found on "
           ++ str_of_Z (Z.of_nat count) ++ " slides")
          5.

(** The second loop of [check_duplicate_titles]. *)
Definition check_duplicate_titles (slides : list Slide)
  : list (nat * list Finding) :=
  fold_left (fun df '(title, indices) =>
               if (1 <? List.length indices)%nat then
                 fold_left (fun df idx =>
                              append_to Nat.eqb df idx
                                (duplicate_finding title (List.length indices)))
                           indices df
               else df)
            (title_counts slides) [].

(** The body of the loop of [evaluate_all] for one slide. *)
Definition evaluate_slide (duplicate_findings : list (nat * list Finding))
           (cfg : Dict.t json) (slide : Slide) : result SlideResult :=
  '(diags, score, bucket_scores) <- run_rules_on_slide slide cfg ;;
  '(diags, score, bucket_scores) <-
    match lookup Nat.eqb duplicate_findings (index slide) with
    | Some dups =>
        let diags := sorted (diags ++ dups)%list in
        let score := Z.max 0 (Z.min 100 (100 - total_deduction diags)) in
        items <- bucket_items cfg ;;
        bucket_scores <- score_buckets items diags bucket_scores ;;
        Ok (diags, score, bucket_scores)
    | None => Ok (diags, score, bucket_scores)
    end ;;
  Ok (mkSlideResult (index slide) (uuid slide) (title slide) (body slide)
                    (metrics slide) diags score bucket_scores).

Fixpoint map_result {A B : Type} (f : A -> result B) (l : list A)
  : result (list B) :=
  match l with
  | [] => Ok []
  | a :: l' => b <- f a ;; bs <- map_result f l' ;; Ok (b :: bs)
  end.

Definition evaluate_all (slides : list Slide) (cfg : Dict.t json)
  : result (list SlideResult) :=
  let duplicate_findings := check_duplicate_titles slides in
  map_result (evaluate_slide duplicate_findings cfg) slides.

End Engine.

(* ====================================================================== *)
(** * SlideSplitter: [split_slides] *)
(* ====================================================================== *)

Module Splitter.
Import Py.

Definition separator : string := "---".

(** The [state] and [fence] variables of [split_slides]: [fence] is set
    exactly while [state] is CODE. *)
Inductive pstate : Type :=
| BODY
| CODE (fence : string).

(** The inner function [is_fence]. *)
Definition is_fence (l : string) : option string :=
  let s := lstrip l in
  if startswith s "```" then Some "```"
  else if startswith s "~~~" then Some "~~~"
  else None.

(** The loop variables [slides], [buf], [state]/[fence]. *)
Record machine : Type := Machine {
  slides : list (list string);
  buf : list string;
  state : pstate
}.

Definition init : machine := Machine [] [] BODY.

(** One iteration of [for ln in lines[i:]]. *)
Definition step (m : machine) (ln : string) : machine :=
  match state m with
  | BODY =>
      match is_fence ln with
      | Some f => Machine (slides m) (buf m ++ [ln]) (CODE f)
      | None =>
          if strip ln =? separator then
            Machine (match buf m with
                     | [] => slides m
                     | _ => slides m ++ [buf m]
                     end) [] BODY
          else Machine (slides m) (buf m ++ [ln]) BODY
      end
  | CODE fence =>
      Machine (slides m) (buf m ++ [ln])
              (if startswith (lstrip ln) fence then BODY else CODE fence)
  end.

Definition run (lines : list string) (m : machine) : machine :=
  fold_left step lines m.

(** [while i < len(lines) and lines[i].strip() != '---': i += 1], with
    [ls = lines[i:]]. *)
Fixpoint skip_to_separator (ls : list string) (i : nat) : nat :=
  match ls with
  | [] => i
  | l :: ls' =>
      if strip l =? separator then i else skip_to_separator ls' (S i)
  end.

(** The index [i] at which the main loop starts. *)
Definition body_start (lines : list string) : nat :=
  match lines with
  | l0 :: rest =>
      if strip l0 =? separator then S (skip_to_separator rest 1) else 0
  | [] => 0
  end.

(** [if buf: slides.append(buf)] after the loop. *)
Definition flush (m : machine) : list (list string) :=
  match buf m with
  | [] => slides m
  | _ => slides m ++ [buf m]
  end.

(** The buffers of the slides, before they are joined and trimmed. *)
Definition raw_slides (lines : list string) : list (list string) :=
  flush (run (skipn (body_start lines) lines) init).

Definition render (s : list string) : string := strip (join nl s).

Definition split_slides (lines : list string) : list string :=
  filter truthy (map render (raw_slides lines)).

End Splitter.

(* ====================================================================== *)
(** * FrontmatterExtractor and OverrideParser *)
(* ====================================================================== *)

Module Parser.
Import Py Json Model.
Local Open Scope py_scope.

(** The [while] loop of [extract_frontmatter] from index [i] on, with
    [ls = lines[i:]]: the metadata read and the index of the closing
    marker (or [len(lines)]). *)
Fixpoint read_meta (ls : list string) (i : nat) (meta : Dict.t string)
  : Dict.t string * nat :=
  match ls with
  | [] => (meta, i)
  | l :: ls' =>
      if strip l =? Splitter.separator then (meta, i)
      else
        let line := strip l in
        let meta' :=
          if contains ":" line then
            Dict.set meta (strip (before ":" line))
                     (strip (after_find ":" 1 line))
          else meta in
        read_meta ls' (S i) meta'
  end.

Definition extract_frontmatter (slide_text : string)
  : Dict.t string * string :=
  let lines := split nl slide_text in
  let '(meta, i) :=
    match lines with
    | l0 :: rest =>
        if strip l0 =? Splitter.separator then
          let '(meta, j) := read_meta rest 1 [] in (meta, S j)
        else ([], O)
    | [] => ([], O)
    end in
  (meta, strip (join nl (skipn i lines))).

(** [sorted(set(disabled))] *)
Fixpoint insert_unique (x : string) (l : list string) : list string :=
  match l with
  | [] => [x]
  | y :: l' =>
      match String.compare x y with
      | Lt => x :: l
      | Eq => l
      | Gt => y :: insert_unique x l'
      end
  end.

Definition sorted_set (l : list string) : list string :=
  fold_right insert_unique [] l.

(** The text of a directive:
    [s[s.find("slidegauge:")+11:].rstrip("-->").strip()]. *)
Definition directive_content (s : string) : string :=
  strip (rstrip_chars "-->" (after_find "slidegauge:" 11 s)).

Section Overrides.

(** [json.loads], [None] when it raises. *)
Variable json_loads : string -> option json.

(** One iteration of the loop of [parse_inline_overrides] over the
    variables [disabled] and [local_cfg]. *)
Definition override_step (st : list string * Dict.t json) (ln : string)
  : result (list string * Dict.t json) :=
  let '(disabled, local_cfg) := st in
  let s := strip ln in
  if startswith s "<!--" && contains "slidegauge:" s then
    let content := directive_content s in
    if startswith content "disable" then
      match split_ws_1 content with
      | [_; rule_id] => Ok ((disabled ++ [strip rule_id])%list, local_cfg)
      | _ => Raise ValueError
      end
    else
      match json_loads content with
      | Some patch =>
          match deep_merge local_cfg patch with
          | Ok merged => Ok (disabled, merged)
          | Raise _ => Ok (disabled, local_cfg)
          end
      | None => Ok (disabled, local_cfg)
      end
  else Ok st.

Fixpoint override_loop (lines : list string)
         (st : list string * Dict.t json)
  : result (list string * Dict.t json) :=
  match lines with
  | [] => Ok st
  | ln :: rest => st' <- override_step st ln ;; override_loop rest st'
  end.

Definition parse_inline_overrides (lines : list string)
  : result Overrides :=
  '(disabled, local_cfg) <- override_loop lines ([], []) ;;
  Ok (mkOverrides (sorted_set disabled) local_cfg).

End Overrides.

(** The title searches shared by [parse_slides] and [scan_slide]: the
    index of the first line that starts with the heading marker and the
    title text taken from it. *)
Fixpoint find_heading (marker : string) (text : string -> string)
         (lines : list string) (i : nat) : option (nat * string) :=
  match lines with
  | [] => None
  | line :: rest =>
      let stripped := strip line in
      if startswith stripped marker then Some (i, text stripped)
      else find_heading marker text rest (S i)
  end.

(** [stripped.split('##')[0].lstrip('#').strip()] *)
Definition h1_text (stripped : string) : string :=
  strip (lstrip_chars "#" (before "##" stripped)).

(** [stripped.split('###')[0][3:].strip()] *)
Definition h2_text (stripped : string) : string :=
  strip (drop 3 (before "###" stripped)).

(** The title and [title_line_index] ([None] for -1). *)
Definition find_title (lines : list string) : string * option nat :=
  let '(title, idx) :=
    match find_heading "# " h1_text lines 0 with
    | Some (i, t) => (t, Some i)
    | None => (EmptyString, None)
    end in
  if truthy title then (title, idx)
  else
    match find_heading "## " h2_text lines 0 with
    | Some (i, t) => (t, Some i)
    | None => (title, idx)
    end.

End Parser.

(* ====================================================================== *)
(** * Regular expressions without groups, matched by derivatives *)
(* ====================================================================== *)

Module Regex.

Inductive re : Type :=
| Void
| Eps
| Chr (p : ascii -> bool)
| Cat (r1 r2 : re)
| Alt (r1 r2 : re)
| Star (r : re).

Fixpoint nullable (r : re) : bool :=
  match r with
  | Void => false
  | Eps => true
  | Chr _ => false
  | Cat r1 r2 => nullable r1 && nullable r2
  | Alt r1 r2 => nullable r1 || nullable r2
  | Star _ => true
  end.

Fixpoint deriv (c : ascii) (r : re) : re :=
  match r with
  | Void => Void
  | Eps => Void
  | Chr p => if p c then Eps else Void
  | Cat r1 r2 =>
      if nullable r1 then Alt (Cat (deriv c r1) r2) (deriv c r2)
      else Cat (deriv c r1) r2
  | Alt r1 r2 => Alt (deriv c r1) (deriv c r2)
  | Star r1 => Cat (deriv c r1) (Star r1)
  end.

(** The whole of [s] is in the language of [r]. *)
Fixpoint matches (r : re) (s : string) : bool :=
  match s with
  | EmptyString => nullable r
  | String c s' => matches (deriv c r) s'
  end.

Definition char (c : ascii) : re := Chr (Ascii.eqb c).

Fixpoint lit (s : string) : re :=
  match s with
  | EmptyString => Eps
  | String c s' => Cat (char c) (lit s')
  end.

Definition plus (r : re) : re := Cat r (Star r).
Definition opt (r : re) : re := Alt r Eps.
Definition one_of (chars : string) : re := Chr (Py.mem_chars chars).
Definition none_of (chars : string) : re :=
  Chr (fun c => negb (Py.mem_chars chars c)).
Definition anything : re := Star (Chr (fun _ => true)).

(** [re.search(r, s)] finds a match. *)
Definition search (r : re) (s : string) : bool :=
  matches (Cat anything (Cat r anything)) s.

(** [re.match(r, s)] finds a match. *)
Definition match_start (r : re) (s : string) : bool :=
  matches (Cat r anything) s.

End Regex.

(* ====================================================================== *)
(** * FeatureScanner: [scan_slide], [parse_color] *)
(* ====================================================================== *)

Module Scanner.
Import Py Json Model Regex.
Local Open Scope py_scope.

Definition space : re := Chr is_space.

(** ^\s*[-*+]\s+ *)
Definition bullet_re : re :=
  Cat (Star space) (Cat (one_of "-*+") (plus space)).

(** https?://[^\s\)]+ *)
Definition url_re : re :=
  Cat (lit "http") (Cat (opt (char "s")) (Cat (lit "://")
    (plus (Chr (fun c => negb (is_space c || Ascii.eqb c ")")))))).

(** The pattern for a Markdown link to an http or https address: an
    opening bracket, any characters but a closing bracket (the group), a
    closing bracket, an opening parenthesis, [https?://], one or more
    characters other than a closing parenthesis, a closing parenthesis. *)
Definition markdown_link_re : re :=
  Cat (char "[") (Cat (Star (none_of "]")) (Cat (lit "](")
    (Cat (lit "http") (Cat (opt (char "s")) (Cat (lit "://")
      (Cat (plus (none_of ")")) (char ")"))))))).

(** The test that increments [metrics["bare_urls"]] for a line. *)
Definition bare_url_line (line : string) : bool :=
  if search url_re line then negb (search markdown_link_re line)
  else false.

(** [c.lower()] on a character. *)
Definition lower_char (c : ascii) : ascii :=
  let n := nat_of_ascii c in
  if (((65 <=? n) && (n <=? 90))
      || ((192 <=? n) && (n <=? 222) && negb (n =? 215)))%nat
  then ascii_of_nat (n + 32) else c.

Fixpoint lower (s : string) : string :=
  match s with
  | EmptyString => EmptyString
  | String c s' => String (lower_char c) (lower s')
  end.

(** The class [\w]: [str.isalnum] or the underscore. *)
Definition is_word (c : ascii) : bool :=
  let n := nat_of_ascii c in
  (((48 <=? n) && (n <=? 57)) || ((65 <=? n) && (n <=? 90))
   || ((97 <=? n) && (n <=? 122)) || (n =? 95)
   || (n =? 170) || (n =? 178) || (n =? 179) || (n =? 181) || (n =? 185)
   || (n =? 186) || ((188 <=? n) && (n <=? 190))
   || ((192 <=? n) && (n <=? 214)) || ((216 <=? n) && (n <=? 246))
   || (248 <=? n))%nat.

(** [s] starts, whatever the case, with the lower-case word [w], and no
    word character follows it. *)
Definition word_here (w s : string) : bool :=
  String.prefix w (lower (substring 0 (String.length w) s))
  && match drop (String.length w) s with
     | EmptyString => true
     | String c _ => negb (is_word c)
     end.

(** [re.search(r'\b(exercise|practice)\b', line, re.IGNORECASE)], with
    [prev_word] telling whether the character before [s] is a word
    character. *)
Fixpoint exercise_word (prev_word : bool) (s : string) : bool :=
  (negb prev_word && (word_here "exercise" s || word_here "practice" s))
  || match s with
     | EmptyString => false
     | String c s' => exercise_word (is_word c) s'
     end.

Definition dquote : string := String (ascii_of_nat 34) EmptyString.

(** The two tests that set [metrics["is_exercise"]]. *)
Definition exercise_line (line : string) : bool :=
  exercise_word false line
  || contains ("class=" ++ dquote ++ "exercise" ++ dquote) line
  || contains ("<div class=" ++ dquote ++ "exercise" ++ dquote) line.

(** The text before and after the first occurrence of [sub]. *)
Fixpoint cut (sub : string) (s : string) : option (string * string) :=
  if String.prefix sub s then Some (EmptyString, drop (String.length sub) s)
  else match s with
       | EmptyString => None
       | String c s' =>
           match cut sub s' with
           | Some (a, b) => Some (String c a, b)
           | None => None
           end
       end.

(** [re.findall(r'!\[(.*?)\]\((.*?)\)', line)] *)
Fixpoint find_images (fuel : nat) (s : string) : list (string * string) :=
  match fuel with
  | O => []
  | S fuel' =>
      match cut "![" s with
      | None => []
      | Some (_, s1) =>
          match cut "](" s1 with
          | None => []
          | Some (alt, s2) =>
              match cut ")" s2 with
              | None => []
              | Some (url, s3) => (alt, url) :: find_images fuel' s3
              end
          end
      end
  end.

(** The longest prefix of characters that satisfy [p], and the rest. *)
Fixpoint span (p : ascii -> bool) (s : string) : string * string :=
  match s with
  | EmptyString => (EmptyString, EmptyString)
  | String c s' =>
      if p c then let (a, b) := span p s' in (String c a, b)
      else (EmptyString, s)
  end.

Fixpoint last_char (s : string) : string :=
  match s with
  | EmptyString => EmptyString
  | String c EmptyString => s
  | String _ s' => last_char s'
  end.

Definition value_char (c : ascii) : bool :=
  negb (mem_chars (";'" ++ dquote) c).

(** A match of color:\s*([^;'dq]+), case ignored, at the start of [s]:
    the group and the text after the match.  When no value character
    follows the white space, the group is the last white space. *)
Definition color_here (s : string) : option (string * string) :=
  if String.prefix "color:" (lower (substring 0 6 s)) then
    let (ws, r1) := span is_space (drop 6 s) in
    let (val, r2) := span value_char r1 in
    match val, ws with
    | String _ _, _ => Some (val, r2)
    | EmptyString, String _ _ => Some (last_char ws, r1)
    | EmptyString, EmptyString => None
    end
  else None.

(** [re.findall(r'color:\s*([^;\'dq]+)', line, re.IGNORECASE)] *)
Fixpoint find_colors (fuel : nat) (s : string) : list string :=
  match fuel with
  | O => []
  | S fuel' =>
      match color_here s with
      | Some (val, rest) => val :: find_colors fuel' rest
      | None =>
          match s with
          | EmptyString => []
          | String _ s' => find_colors fuel' s'
          end
      end
  end.

(** [min(contrasts)] for a non-empty list whose first element is [cur]. *)
Fixpoint py_min (cur : float) (l : list float) : float :=
  match l with
  | [] => cur
  | x :: l' => py_min (if (x <? cur)%float then x else cur) l'
  end.

Definition rgb_eqb (a b : Color.rgb) : bool :=
  let '(r1, g1, b1) := a in
  let '(r2, g2, b2) := b in
  ((r1 =? r2) && (g1 =? g2) && (b1 =? b2))%Z.

(** [len(set(l))] *)
Fixpoint count_distinct (l : list Color.rgb) : nat :=
  match l with
  | [] => O
  | x :: l' =>
      if existsb (rgb_eqb x) l' then count_distinct l'
      else S (count_distinct l')
  end.

(** The state of the loop of [scan_slide]: [fence] is [Some code_fence]
    while [in_code_block] holds. *)
Record scan_state : Type := mkScan {
  fence : option string;
  code_content : list string;
  acc : Metrics
}.

Section Scan.

(** The built-in [int(text, base)], [None] when it raises. *)
Variable py_int : string -> Z -> option Z.

Definition channel (z : Z) : bool := ((0 <=? z) && (z <=? 255))%Z.

Definition parse_color (s : string) : option Color.rgb :=
  let s := lower (strip s) in
  if startswith s "#" && (String.length s =? 7)%nat then
    match py_int (substring 1 2 s) 16, py_int (substring 3 2 s) 16,
          py_int (substring 5 2 s) 16 with
    | Some r, Some g, Some b => Some (r, g, b)
    | _, _, _ => None
    end
  else if startswith s "rgb(" && endswith s ")" then
    match map (fun p => py_int (strip p) 10)
              (firstn 3 (split "," (drop_last (drop 4 s)))) with
    | [Some r; Some g; Some b] =>
        if channel r && channel g && channel b then Some (r, g, b)
        else None
    | _ => None
    end
  else None.

(** The colours a line adds to [metrics["colors"]]. *)
Definition line_colors (line : string)
  : list (string * Color.rgb * float) :=
  flat_map (fun color_val =>
              match parse_color color_val with
              | Some rgb =>
                  [(color_val, rgb, Color.contrast_ratio rgb Color.white)]
              | None => []
              end)
           (find_colors (S (String.length line)) line).

(** The part of the loop body that accounts for a content line. *)
Definition scan_content (cfg : Dict.t json) (m : Metrics) (line : string)
  : result Metrics :=
  let stripped := strip line in
  let is_table_row := contains "| " line && contains " | " line in
  let is_chart := contains "mermaid" (lower stripped) in
  adjusted_chars <-
    (if is_table_row then
       v <- Config.rule_param cfg "special" "table_char_eq" ;;
       Config.as_limit v
     else if is_chart then
       v <- Config.rule_param cfg "special" "chart_char_eq" ;;
       Config.as_limit v
     else Ok (len line)) ;;
  Ok (mkMetrics
        (title_length m)
        (content_chars m + len line)
        (content_chars_adjusted m + adjusted_chars)
        (if match_start bullet_re line then bullets m + 1 else bullets m)
        (lines m)
        (code_blocks m)
        (has_table m || is_table_row || contains "|" line)
        (has_chart m || is_chart)
        (is_exercise m || exercise_line line)
        (images m ++ find_images (String.length line) line)
        (colors m ++ line_colors line)
        (min_contrast m)
        (unique_colors m)
        (if bare_url_line line then bare_urls m + 1 else bare_urls m))%Z.

Definition add_code_block (m : Metrics) (block : Z * string) : Metrics :=
  mkMetrics (title_length m) (content_chars m) (content_chars_adjusted m)
            (bullets m) (lines m) (code_blocks m ++ [block])
            (has_table m) (has_chart m) (is_exercise m) (images m)
            (colors m) (min_contrast m) (unique_colors m) (bare_urls m).

(** One iteration of [for i, line in enumerate(lines)]. *)
Definition scan_line (cfg : Dict.t json) (title_line_index : option nat)
           (st : scan_state) (i : nat) (line : string)
  : result scan_state :=
  let stripped := strip line in
  match fence st with
  | None =>
      if startswith stripped "```" || startswith stripped "~~~" then
        Ok (mkScan (Some (substring 0 3 stripped)) [] (acc st))
      else if match title_line_index with
              | Some t => (i =? t)%nat
              | None => false
              end
      then Ok st
      else
        m <- scan_content cfg (acc st) line ;;
        Ok (mkScan None (code_content st) m)
  | Some code_fence =>
      if startswith stripped code_fence then
        let lang := strip (drop 3 stripped) in
        let code_lines := Z.of_nat (List.length (code_content st)) in
        Ok (mkScan None [] (add_code_block (acc st) (code_lines, lang)))
      else
        Ok (mkScan (Some code_fence) (code_content st ++ [line]) (acc st))
  end.

Fixpoint scan_loop (cfg : Dict.t json) (title_line_index : option nat)
         (ls : list string) (i : nat) (st : scan_state)
  : result scan_state :=
  match ls with
  | [] => Ok st
  | line :: rest =>
      st' <- scan_line cfg title_line_index st i line ;;
      scan_loop cfg title_line_index rest (S i) st'
  end.

(** The colour metrics computed after the loop. *)
Definition finish_colors (m : Metrics) : Metrics :=
  match map snd (colors m) with
  | [] => m
  | c :: cs =>
      mkMetrics (title_length m) (content_chars m)
                (content_chars_adjusted m) (bullets m) (lines m)
                (code_blocks m) (has_table m) (has_chart m)
                (is_exercise m) (images m) (colors m)
                (Some (py_min c cs))
                (Z.of_nat
                   (count_distinct (map (fun t => snd (fst t)) (colors m))))
                (bare_urls m)
  end.

Definition scan_slide (text : string) (cfg : Dict.t json)
  : result Metrics :=
  let lines := split nl text in
  let '(title_text, title_line_index) := Parser.find_title lines in
  let m0 := mkMetrics (len title_text) 0 0 0
                      (Z.of_nat (List.length lines)) [] false false false
                      [] [] None 0 0 in
  st <- scan_loop cfg title_line_index lines 0 (mkScan None [] m0) ;;
  Ok (finish_colors (acc st)).

End Scan.

End Scanner.

(* ====================================================================== *)
(** * [parse_slides] *)
(* ====================================================================== *)

Module Pipeline.
Import Py Json Model.
Local Open Scope py_scope.

Section Parse.

(** Library functions: [json.loads] and the built-in [int] ([None]
    when they raise), and [uuid5_of]. *)
Variable json_loads : string -> option json.
Variable py_int : string -> Z -> option Z.
Variable uuid5_of : string -> string.

(** The body of the loop of [parse_slides]. *)
Definition parse_slide (i : nat) (slide_text : string) : result Slide :=
  let '(meta, content) := Parser.extract_frontmatter slide_text in
  let content_lines := split nl content in
  overrides <- Parser.parse_inline_overrides json_loads content_lines ;;
  let title := fst (Parser.find_title content_lines) in
  metrics <- Scanner.scan_slide py_int content Config.DEFAULTS ;;
  Ok (mkSlide i (uuid5_of (strip content)) title content metrics overrides).

Fixpoint parse_loop (i : nat) (slide_texts : list string)
  : result (list Slide) :=
  match slide_texts with
  | [] => Ok []
  | t :: rest =>
      s <- parse_slide i t ;;
      more <- parse_loop (S i) rest ;;
      Ok (s :: more)
  end.

Definition parse_slides (markdown : string) : result (list Slide) :=
  parse_loop 0 (Splitter.split_slides (split nl markdown)).

End Parse.

End Pipeline.

(* ====================================================================== *)
(** * ContentCache and the analyze operation *)
(* ====================================================================== *)

Module Analyzer.
Import Py Json Model Engine.
Local Open Scope py_scope.
Local Open Scope Z_scope.

(** A value of the cache file: the findings, as plain fields, the score
    and the bucket scores. *)
Record CacheEntry : Type := mkEntry {
  c_diagnostics : list Finding;
  c_score : Z;
  c_bucket_scores : Dict.t Z
}.

(** The cache file, keyed by slide identity. *)
Definition Cache : Type := Dict.t CacheEntry.

Definition get_cached_results (slides : list Slide) (cache : Cache)
  : Dict.t (option SlideResult) :=
  fold_left
    (fun cached slide =>
       Dict.set cached (uuid slide)
         (match Dict.get cache (uuid slide) with
          | Some cache_data =>
              Some (mkSlideResult (index slide) (uuid slide) (title slide)
                                  (body slide) (metrics slide)
                                  (c_diagnostics cache_data)
                                  (c_score cache_data)
                                  (c_bucket_scores cache_data))
          | None => None
          end))
    slides [].

(** [cached_results[s.uuid]], a result or [None]. *)
Definition cached_result (cached : Dict.t (option SlideResult)) (s : Slide)
  : option SlideResult :=
  match Dict.get cached (uuid s) with
  | Some r => r
  | None => None
  end.

Definition is_uncached (cached : Dict.t (option SlideResult)) (s : Slide)
  : bool :=
  match cached_result cached s with
  | Some _ => false
  | None => true
  end.

Definition entry_of (r : SlideResult) : CacheEntry :=
  mkEntry (diagnostics r) (score r) (bucket_scores r).

(** The loop that stores the new results. *)
Definition store_results (new_results : list SlideResult)
           (uncached_slides : list Slide)
           (st : Cache * Dict.t (option SlideResult))
  : Cache * Dict.t (option SlideResult) :=
  let new_results_map :=
    fold_left (fun m r => Dict.set m (r_uuid r) r) new_results [] in
  fold_left
    (fun '(cache, cached) slide =>
       match Dict.get new_results_map (uuid slide) with
       | Some result =>
           (Dict.set cache (uuid slide) (entry_of result),
            Dict.set cached (uuid slide) (Some result))
       | None => (cache, cached)
       end)
    uncached_slides st.

(** [round(x, 1)] for a [float]: the nearest tenth, ties to even on the
    exact value, read back as a [float]. *)
Definition tenths (m : positive) (e : Z) : Z :=
  let n := Z.pos m * 10 in
  if 0 <=? e then n * 2 ^ e
  else
    let d := 2 ^ (- e) in
    let q := n / d in
    let r := n mod d in
    if d <? 2 * r then q + 1
    else if 2 * r =? d then (if Z.even q then q else q + 1)
    else q.

Definition round1 (x : float) : float :=
  match Prim2SF x with
  | S754_finite s m e =>
      let t := (Color.float_of_int (tenths m e) / 10)%float in
      if s then PrimFloat.opp t else t
  | _ => x
  end.

(** [sum(values) / len(values)] for a non-empty list of [int]. *)
Definition mean (values : list Z) : float :=
  (Color.float_of_int (fold_left Z.add values 0%Z)
   / Color.float_of_int (Z.of_nat (List.length values)))%float.

Definition list_min (x : Z) (l : list Z) : Z := fold_left Z.min l x.
Definition list_max (x : Z) (l : list Z) : Z := fold_left Z.max l x.

(** [s >= effective_cfg["threshold"]] for an [int] score. *)
Definition meets (threshold : json) (s : Z) : result bool :=
  match threshold with
  | JInt t => Ok (t <=? s)
  | JFloat _ | JBool _ => Raise OutsideModel
  | _ => Raise TypeError
  end.

Fixpoint count_passing (threshold : json) (scores : list Z) : result Z :=
  match scores with
  | [] => Ok 0
  | s :: rest =>
      p <- meets threshold s ;;
      n <- count_passing threshold rest ;;
      Ok (if p then 1 + n else n)
  end.

(** The names [for bucket in effective_cfg["buckets"]] iterates over. *)
Definition bucket_names (cfg : Dict.t json) : result (list string) :=
  b <- getitem (JDict cfg) "buckets" ;;
  match b with
  | JDict d => Ok (map fst d)
  | JList _ | JStr _ => Raise OutsideModel
  | _ => Raise TypeError
  end.

Definition bucket_average (slide_results : list SlideResult)
           (bucket : string) : json :=
  match slide_results with
  | [] => JInt 100
  | _ =>
      JFloat (mean (map (fun r =>
                           match Dict.get (bucket_scores r) bucket with
                           | Some v => v
                           | None => 100
                           end) slide_results))
  end.

(** The [summary] dictionary. *)
Definition summarize (cfg : Dict.t json) (n_slides : nat)
           (slide_results : list SlideResult) : result (Dict.t json) :=
  let scores := map score slide_results in
  let avg_score :=
    match scores with
    | [] => JInt 0
    | _ => JFloat (round1 (mean scores))
    end in
  names <- bucket_names cfg ;;
  let averages :=
    fold_left (fun d b => Dict.set d b (bucket_average slide_results b))
              names [] in
  threshold <- getitem (JDict cfg) "threshold" ;;
  passing <- count_passing threshold scores ;;
  Ok [ ("total_slides", JInt (Z.of_nat n_slides));
       ("avg_score", avg_score);
       ("min_score", JInt (match scores with
                           | [] => 0
                           | s :: rest => list_min s rest
                           end));
       ("max_score", JInt (match scores with
                           | [] => 0
                           | s :: rest => list_max s rest
                           end));
       ("threshold", threshold);
       ("bucket_scores", JDict averages);
       ("passing", JInt passing);
       ("total_issues",
        JInt (Z.of_nat (List.length (flat_map diagnostics slide_results)))) ].

(** The report of [to_json], without the engine metadata. *)
Record Report : Type := mkReport {
  rep_slides : list SlideResult;
  rep_summary : Dict.t json
}.

(** [handle_analyze] from the cache lookup on: the response (an error
    response for an exception) and the cache file afterwards. *)
Definition analyze_slides (effective_cfg : Dict.t json)
           (slides : list Slide) (cache : Cache) : result Report * Cache :=
  let cached_results := get_cached_results slides cache in
  let uncached_slides := filter (is_uncached cached_results) slides in
  let evaluated :=
    match uncached_slides with
    | [] => Ok (cache, cached_results)
    | _ =>
        new_results <- evaluate_all uncached_slides effective_cfg ;;
        Ok (store_results new_results uncached_slides
                          (cache, cached_results))
    end in
  match evaluated with
  | Raise e => (Raise e, cache)
  | Ok (cache', cached_results') =>
      let slide_results :=
        flat_map (fun s =>
                    match cached_result cached_results' s with
                    | Some r => [r]
                    | None => []
                    end) slides in
      (summary <- summarize effective_cfg (List.length slides)
                            slide_results ;;
       Ok (mkReport slide_results summary),
       cache')
  end.

Section Analyze.

Variable json_loads : string -> option json.
Variable py_int : string -> Z -> option Z.
Variable uuid5_of : string -> string.

(** [handle_analyze] for a request with the given document and
    configuration object, against the given cache file. *)
Definition handle_analyze (document : string) (config : json)
           (cache : Cache) : result Report * Cache :=
  match
    (effective_cfg <- deep_merge (Config.clone_dict Config.DEFAULTS)
                                 config ;;
     slides <- Pipeline.parse_slides json_loads py_int uuid5_of
                                     document ;;
     Ok (effective_cfg, slides))
  with
  | Raise e => (Raise e, cache)
  | Ok (effective_cfg, slides) => analyze_slides effective_cfg slides cache
  end.

End Analyze.

End Analyzer.

(* ====================================================================== *)
(** * Reporting: [to_sarif] *)
(* ====================================================================== *)

Module Reporting.
Import Py Json Model.
Local Open Scope Z_scope.





End Reporting.

(* ====================================================================== *)
(** * The operations [slides] and [rules] of the stdio protocol *)
(* ====================================================================== *)

Module Protocol.
Import Py Json Model.
Local Open Scope py_scope.


Section Slides.

Variable json_loads : string -> option json.
Variable py_int : string -> Z -> option Z.
Variable uuid5_of : string -> string.


End Slides.

(** The dictionary of one rule in the answer of [handle_rules]. *)
Definition rule_entry (r : Rules.Rule) : Dict.t json :=
  [ ("id", JStr (Rules.id r));
    ("severity", JStr (Rules.rule_severity r));
    ("bucket", JStr (Rules.bucket r)) ].

(** [handle_rules]: the list under ["rules"]. *)
Definition handle_rules : list (Dict.t json) :=
  map rule_entry Rules.REGISTRY.

End Protocol.


(* ====================================================================== *)
(** * Vocabulary of the statements *)
(* ====================================================================== *)

Module Spec.
Import Py Json Model.
Local Open Scope Z_scope.

(** The fence remembered in CODE is one of the two fence tokens. *)
Definition fence_ok (m : Splitter.machine) : Prop :=
  match Splitter.state m with
  | Splitter.BODY => True
  | Splitter.CODE f => f = "```" \/ f = "~~~"
  end.

(** The characters of a string, and a string with a character that is
    not white space. *)
Definition chars (s : string) : list ascii := list_ascii_of_string s.

Definition has_ink (s : string) : Prop :=
  exists c, In c (chars s) /\ is_space c = false.

(** A score within the bounds. *)
Definition in_range (v : Z) : Prop := 0 <= v <= 100.

Definition scores_in_range (d : Dict.t Z) : Prop :=
  Forall (fun kv => in_range (snd kv)) d.

(** A pattern ending in a star matches by identifier prefix, any other
    pattern matches exactly. *)
Definition pattern_matches (rule_id pattern : string) : bool :=
  if endswith pattern "*" then startswith rule_id (drop_last pattern)
  else (rule_id =? pattern)%string.

(** The findings that match one pattern of the bucket at least. *)
Definition matching (patterns : list string) (diags : list Finding)
  : list Finding :=
  filter (fun f => existsb (pattern_matches (rule f)) patterns) diags.

Definition clamp (x lo hi : Z) : Z := Z.max lo (Z.min hi x).

(** The sum of the deductions as they stand. *)
Definition sum_deductions (diags : list Finding) : Z :=
  fold_right (fun f acc => deduction f + acc) 0 diags.

(** The two findings of color/low_contrast. *)
Definition low_contrast_id : string := "color/low_contrast".

Definition error_finding (mc err : float) (w : Z) : Finding :=
  finding low_contrast_id "error"
          ("Contrast " ++ Color.format_2f mc ++ " below minimum "
           ++ Color.format_2f err ++ " (use darker/lighter colors)")
          w.

Definition warning_finding (mc warn : float) (w : Z) : Finding :=
  finding low_contrast_id "warning"
          ("Contrast " ++ Color.format_2f mc ++ " below recommended "
           ++ Color.format_2f warn ++ " (increase for better readability)")
          (w / 2).

Section PutAll.

Context {A V : Type}.
Variable key : A -> string.
Variable val : A -> V.

(** A loop that stores one value per element. *)
Definition put_all (l : list A) (d : Dict.t V) : Dict.t V :=
  fold_left (fun d a => Dict.set d (key a) (val a)) l d.

End PutAll.

(** The result served for a slide whose identity is in the cache. *)
Definition from_cache (slide : Slide) (cache_data : Analyzer.CacheEntry)
  : SlideResult :=
  mkSlideResult (index slide) (uuid slide) (title slide) (body slide)
                (metrics slide) (Analyzer.c_diagnostics cache_data)
                (Analyzer.c_score cache_data)
                (Analyzer.c_bucket_scores cache_data).

(** The result of a slide in the report: the cached one on a hit, else
    the one computed for it in this run. *)
Definition served (cache : Analyzer.Cache) (new_results : list SlideResult)
           (s : Slide) : list SlideResult :=
  match Dict.get cache (uuid s) with
  | Some cache_data => [from_cache s cache_data]
  | None =>
      match find (fun r => (r_uuid r =? uuid s)%string) new_results with
      | Some r => [r]
      | None => []
      end
  end.

(** A slide whose identity is not in the cache. *)
Definition is_miss (cache : Analyzer.Cache) (s : Slide) : bool :=
  negb (Dict.mem cache (uuid s)).

(** One iteration of the loop of [store_results]. *)
Definition store_step (new_results_map : Dict.t SlideResult)
           (st : Analyzer.Cache * Dict.t (option SlideResult)) (slide : Slide)
  : Analyzer.Cache * Dict.t (option SlideResult) :=
  let '(cache, cached) := st in
  match Dict.get new_results_map (uuid slide) with
  | Some result =>
      (Dict.set cache (uuid slide) (Analyzer.entry_of result),
       Dict.set cached (uuid slide) (Some result))
  | None => (cache, cached)
  end.















(** The rules named in the findings of each result, with its title. *)
Definition titles_and_rules (report : Analyzer.Report)
  : list (string * list string) :=
  map (fun r => (r_title r, map rule (diagnostics r)))
      (Analyzer.rep_slides report).

(** The messages of the duplicate-title findings of each result. *)
Definition duplicate_messages (report : Analyzer.Report)
  : list (list string) :=
  map (fun r =>
         map message
             (filter (fun f =>
                        (rule f =? "structure/duplicate_titles")%string)
                     (diagnostics r)))
      (Analyzer.rep_slides report).

End Spec.

(* ====================================================================== *)
(** * Example inputs *)
(* ====================================================================== *)

Module Examples.
Import Py Json Model.

(** The document of the fence test. *)
Definition fence_example : string :=
  join nl ["# A"; "```"; "code with ---"; "```"; "---"; "# B"].

(** A document with a separator line inside a fenced block. *)
Definition fenced_separator_lines : list string :=
  ["# A"; "```"; "---"; "```"; "---"; "# B"].

(** Stand-ins for the library functions on inputs that never reach them:
    no directive payload to decode, no colour channel to convert. *)
Definition no_json : string -> option json := fun _ => None.
Definition no_int : string -> Z -> option Z := fun _ _ => None.

(** An injective stand-in for [uuid5_of]. *)
Definition tagged (data : string) : string := "uuid5:" ++ data.

(** A slide with no title, and a configuration that weighs the missing
    title at 150. *)
Definition untitled_slide : Slide :=
  mkSlide 0 "uuid5:untitled" "" "Body"
          (mkMetrics 0 4 4 0 1 [] false false false [] [] None 0 0)
          (mkOverrides [] []).

Definition heavy_config : Dict.t json :=
  merge_into Config.DEFAULTS
    (JDict [("weights", JDict [("title/required", JInt 150)])]).

(** A slide whose only colour is the light grey (170,170,170). *)
Definition light_grey : Color.rgb := (170, 170, 170)%Z.

Definition light_grey_slide : Slide :=
  let c := Color.contrast_ratio light_grey Color.white in
  mkSlide 0 "uuid5:grey" "Slide" "# Slide"
          (mkMetrics 5 0 0 0 1 [] false false false []
                     [("#aaaaaa", light_grey, c)] (Some c) 1 0)
          (mkOverrides [] []).

(** A configuration whose error threshold is the contrast of that
    colour. *)
Definition boundary_config : Dict.t json :=
  merge_into Config.DEFAULTS
    (JDict [("rules", JDict [("color", JDict
       [("min_contrast_error",
         JFloat (Color.contrast_ratio light_grey Color.white))])])]).

(** A disable directive that names no rule. *)
Definition bare_disable_doc : string :=
  join nl ["# T"; "<!-- slidegauge: disable -->"].

(** A line with a Markdown link and a separate bare address. *)
Definition mixed_links_doc : string :=
  join nl ["# T"; "[docs](https://a.io) see https://b.io"].

(** A document that opens a frontmatter block and never closes it. *)
Definition unterminated_doc : string :=
  join nl ["---"; "title: Deck"; "# Intro"; "Text"].

(** A deck of one slide, and the deck with a second slide of the same
    title added. *)
Definition first_deck : string := join nl ["# Same"; "Alpha"].

Definition second_deck : string :=
  join nl ["# Same"; "Alpha"; "---"; "# Same"; "Beta"].

(** The same two slides as [Slide] values, the first one in the cache. *)
Definition slide_alpha : Slide :=
  mkSlide 0 "uuid5:alpha" "Same" (join nl ["# Same"; "Alpha"])
          (mkMetrics 4 5 5 0 2 [] false false false [] [] None 0 0)
          (mkOverrides [] []).

Definition slide_beta : Slide :=
  mkSlide 1 "uuid5:beta" "Same" (join nl ["# Same"; "Beta"])
          (mkMetrics 4 4 4 0 2 [] false false false [] [] None 0 0)
          (mkOverrides [] []).

Definition alpha_cache : Analyzer.Cache :=
  [("uuid5:alpha",
    Analyzer.mkEntry
      [finding "content/too_short" "info"
               "Content 5 < min 50 (add ~45 chars)" 5]
      95
      [("a11y", 100); ("code", 100); ("color", 100); ("content", 95);
       ("layout", 100)]%Z)].

Definition quoted (s : string) : string :=
  Scanner.dquote ++ s ++ Scanner.dquote.

(** The JSON text of a patch that adds a bucket for the structure rules,
    the value it decodes to, and [json.loads] on that one payload. *)
Definition bucket_patch_text : string :=
  "{" ++ quoted "buckets" ++ ": {" ++ quoted "extra" ++ ": ["
      ++ quoted "structure/*" ++ "]}}".

Definition bucket_patch : json :=
  JDict [("buckets", JDict [("extra", Config.strs ["structure/*"])])].

Definition patch_json (text : string) : option json :=
  if (text =? bucket_patch_text)%string then Some bucket_patch else None.

(** Two slides with the same title, the first with the patch inline. *)
Definition patched_deck : string :=
  join nl [ "# Same";
            ("<!-- slidegauge: " ++ bucket_patch_text ++ " -->")%string;
            "Alpha";
            "---";
            "# Same";
            "Beta" ].

(** The deck with a third slide of the same title. *)
Definition third_deck : string :=
  join nl ["# Same"; "Alpha"; "---"; "# Same"; "Beta"; "---"; "# Same";
           "Gamma"].

End Examples.

(* ====================================================================== *)
(** * Vocabulary of the further properties *)
(* ====================================================================== *)

Module Props.
Import Py Json Model.
Local Open Scope Z_scope.


(** A string of white space only. *)
Definition blank (s : string) : Prop :=
  Forall (fun c => is_space c = true) (list_ascii_of_string s).




















(** The buckets of a table of patterns that match a rule identifier. *)
Definition buckets_of (table : list (string * list string))
           (rule_id : string) : list string :=
  map fst (filter (fun kv => existsb (Spec.pattern_matches rule_id) (snd kv))
                  table).

(** A table of patterns as the value of ["buckets"]. *)
Definition bucket_table (table : list (string * list string))
  : list (string * json) :=
  map (fun kv => (fst kv, Config.strs (snd kv))) table.










End Props.

Module Cases.
Import Py Json Model.














End Cases.

(* ====================================================================== *)
(** * Properties of the splitter *)
(* ====================================================================== *)

Module SplitterFacts.
Import Py Splitter Spec.

Lemma run_app (a b : list string) (m : machine) :
  run (a ++ b) m = run b (run a m).
Proof. apply fold_left_app. Qed.

Lemma is_fence_token (l f : string) :
  is_fence l = Some f -> f = "```" \/ f = "~~~".
Proof.
  unfold is_fence.
  destruct (startswith (lstrip l) "```"); [intros [= <-]; now left|].
  destruct (startswith (lstrip l) "~~~"); [intros [= <-]; now right|].
  discriminate.
Qed.

Lemma step_fence_ok (m : machine) (ln : string) :
  fence_ok m -> fence_ok (step m ln).
Proof.
  unfold fence_ok, step. destruct (state m) as [|f]; intros H.
  - destruct (is_fence ln) eqn:E; simpl.
    + eauto using is_fence_token.
    + now destruct (strip ln =? separator).
  - simpl. now destruct (startswith (lstrip ln) f).
Qed.

Lemma run_fence_ok (ls : list string) (m : machine) :
  fence_ok m -> fence_ok (run ls m).
Proof.
  revert m. induction ls as [|l ls IH]; intros m H; simpl; auto.
  apply IH, step_fence_ok, H.
Qed.

(** A line that trims to the separator starts, after its indentation,
    with a dash. *)
Lemma rstrip_head (c : ascii) (s r : string) :
  rstrip (String c s) = r -> r <> EmptyString ->
  exists r', r = String c r'.
Proof.
  simpl. destruct (rstrip s) as [|c' t].
  - destruct (is_space c); intros <- H; [now elim H | eauto].
  - intros <- _. eauto.
Qed.

Lemma separator_line_head (ln : string) :
  strip ln = separator -> exists r, lstrip ln = String "-" r.
Proof.
  unfold strip. destruct (lstrip ln) as [|c s] eqn:E; [discriminate|].
  intros H. destruct (rstrip_head _ _ _ H) as [r' Hr]; [discriminate|].
  unfold separator in Hr. injection Hr as <- _.
  rewrite <- E. now exists s.
Qed.

Lemma separator_line_not_fence_close (ln f : string) :
  strip ln = separator -> f = "```" \/ f = "~~~" ->
  startswith (lstrip ln) f = false.
Proof.
  intros H Hf. destruct (separator_line_head _ H) as [r ->].
  now destruct Hf as [-> | ->].
Qed.

(** Inside a fenced block a separator line is kept and changes nothing
    else. *)
Lemma step_code_separator (m : machine) (ln f : string) :
  fence_ok m -> state m = CODE f -> strip ln = separator ->
  step m ln = Machine (slides m) (buf m ++ [ln]) (CODE f).
Proof.
  intros Hok Hs Hsep. unfold step. unfold fence_ok in Hok.
  rewrite Hs in *. now rewrite separator_line_not_fence_close.
Qed.

(** Finished slides are never revisited. *)
Lemma flush_run_slides (ls : list string) (m : machine) :
  exists later, flush (run ls m) = slides m ++ later.
Proof.
  revert m. induction ls as [|l ls IH]; intros m.
  - unfold flush; simpl. destruct (buf m); [|eauto].
    exists []. now rewrite app_nil_r.
  - simpl. destruct (IH (step m l)) as [later ->].
    unfold step. destruct (state m).
    + destruct (is_fence l); simpl; eauto.
      destruct (strip l =? separator); simpl; eauto.
      destruct (buf m); eauto. rewrite <- app_assoc. eauto.
    + simpl. eauto.
Qed.

(** A non-empty buffer ends up, extended, as one slide. *)
Lemma flush_run_buf (ls : list string) (m : machine) :
  buf m <> [] ->
  exists more later,
    flush (run ls m) = slides m ++ (buf m ++ more) :: later.
Proof.
  revert m. induction ls as [|l ls IH]; intros m Hb.
  - exists [], []. unfold flush; simpl. rewrite app_nil_r.
    now destruct (buf m).
  - simpl.
    assert (Hgrow : forall st,
               exists more later,
                 flush (run ls (Machine (slides m) (buf m ++ [l]) st))
                 = slides m ++ (buf m ++ more) :: later).
    { intros st.
      destruct (IH (Machine (slides m) (buf m ++ [l]) st))
        as (more & later & E).
      - simpl. now destruct (buf m).
      - simpl in E. rewrite <- app_assoc in E. simpl in E. eauto. }
    unfold step. destruct (state m).
    + destruct (is_fence l); [apply Hgrow|].
      destruct (strip l =? separator); [|apply Hgrow].
      destruct (buf m) as [|b bs] eqn:Eb; [now elim Hb|].
      destruct (flush_run_slides ls (Machine (slides m ++ [b :: bs]) [] BODY))
        as [later E].
      simpl in E. rewrite <- app_assoc in E. simpl in E.
      exists [], later. now rewrite app_nil_r.
    + apply Hgrow.
Qed.

End SplitterFacts.

Module RenderFacts.
Import Py Splitter Spec SplitterFacts.

Lemma lstrip_keeps_ink (s : string) : has_ink s -> has_ink (lstrip s).
Proof.
  intros (c & Hin & Hc). induction s as [|a s IH]; [now elim Hin|].
  simpl. destruct (is_space a) eqn:Ea.
  - apply IH. destruct Hin as [<- | Hin]; [congruence | exact Hin].
  - exists c. split; [exact Hin | exact Hc].
Qed.

Lemma lstrip_head (s : string) (c : ascii) (r : string) :
  lstrip s = String c r -> is_space c = false.
Proof.
  induction s as [|a s IH]; simpl; [discriminate|].
  destruct (is_space a) eqn:Ea; [exact IH|].
  intros H. injection H as <- _. exact Ea.
Qed.

Lemma rstrip_ink_head (c : ascii) (r : string) :
  is_space c = false -> truthy (rstrip (String c r)) = true.
Proof.
  intros Hc. simpl. destruct (rstrip r); [now rewrite Hc | reflexivity].
Qed.

Lemma strip_of_ink (s : string) : has_ink s -> truthy (strip s) = true.
Proof.
  intros H. apply lstrip_keeps_ink in H. unfold strip.
  destruct (lstrip s) as [|c r] eqn:E.
  - destruct H as (c & Hin & _). now elim Hin.
  - apply rstrip_ink_head. exact (lstrip_head s c r E).
Qed.

Lemma chars_app (a b : string) : chars (a ++ b) = (chars a ++ chars b)%list.
Proof.
  induction a as [|c a IH]; simpl; [reflexivity|]. unfold chars in *.
  simpl. now rewrite IH.
Qed.

Lemma join_keeps_ink (l : list string) (x : string) :
  In x l -> has_ink x -> has_ink (join nl l).
Proof.
  intros Hin (c & Hc & Hs). exists c. split; [|exact Hs].
  induction l as [|p l IH]; [now elim Hin|].
  destruct l as [|q l].
  - destruct Hin as [-> | []]. exact Hc.
  - change (join nl (p :: q :: l))
      with (p ++ String nl (join nl (q :: l)))%string.
    rewrite chars_app. apply in_or_app.
    destruct Hin as [-> | Hin]; [now left|].
    right. right. now apply IH.
Qed.

Lemma lstrip_chars_incl (s : string) (c : ascii) :
  In c (chars (lstrip s)) -> In c (chars s).
Proof.
  induction s as [|a s IH]; simpl; [auto|].
  destruct (is_space a); [|auto]. intros H. right. now apply IH.
Qed.

Lemma fence_line_has_ink (l f : string) : is_fence l = Some f -> has_ink l.
Proof.
  unfold is_fence, startswith. intros H.
  destruct (lstrip l) as [|c r] eqn:E; [discriminate|].
  exists c. split.
  - apply lstrip_chars_incl. rewrite E. now left.
  - exact (lstrip_head l c r E).
Qed.

(** A buffer that holds a fence line is rendered as a slide. *)
Lemma fenced_buffer_is_rendered (lines : list string) (b : list string)
      (opener f : string) :
  In b (raw_slides lines) -> In opener b -> is_fence opener = Some f ->
  In (render b) (split_slides lines).
Proof.
  intros Hb Ho Hf. unfold split_slides. apply filter_In. split.
  - now apply in_map.
  - unfold render. apply strip_of_ink.
    eapply join_keeps_ink; eauto using fence_line_has_ink.
Qed.

End RenderFacts.

Module SplitterSpec.
Import Py Splitter Spec Examples SplitterFacts RenderFacts.

(** Inside a fenced block, lines that do not close it are appended. *)
Lemma run_code_inner (f : string) (inner : list string) (m : machine) :
  state m = CODE f ->
  Forall (fun l => startswith (lstrip l) f = false) inner ->
  run inner m = Machine (slides m) (buf m ++ inner) (CODE f).
Proof.
  revert m. induction inner as [|l inner IH]; intros m Hs Hin.
  - simpl. rewrite app_nil_r. destruct m; simpl in *. now subst.
  - inversion Hin as [|? ? Hl Hrest]; subst. simpl.
    assert (E : step m l = Machine (slides m) (buf m ++ [l]) (CODE f)).
    { unfold step. now rewrite Hs, Hl. }
    rewrite E, IH; auto. simpl. now rewrite <- app_assoc.
Qed.

Lemma step_body_fence (m : machine) (opener f : string) :
  state m = BODY -> is_fence opener = Some f ->
  step m opener = Machine (slides m) (buf m ++ [opener]) (CODE f).
Proof. intros Hs Hf. unfold step. now rewrite Hs, Hf. Qed.

(** C1.  A line that trims to the separator marker and lies between a
    fence-opening line and the line that closes that fence is appended
    verbatim to the current slide buffer and never ends a slide: the
    slide that holds the fence opener holds the lines of the block and
    the separator line after them, and it is one of the slides returned.
    The example document splits into exactly two slides, and the body of
    the first contains the marker. *)
Theorem separator_inside_fence_never_splits :
  (forall (lines a inner post : list string) (opener ln f : string),
      skipn (body_start lines) lines = a ++ opener :: inner ++ ln :: post ->
      state (run a init) = BODY ->
      is_fence opener = Some f ->
      Forall (fun l => startswith (lstrip l) f = false) inner ->
      strip ln = separator ->
      let m := run (a ++ opener :: inner) init in
      state m = CODE f
      /\ step m ln = Machine (slides m) (buf m ++ [ln]) (CODE f)
      /\ exists more later,
          raw_slides lines
          = slides (run a init)
            ++ (buf (run a init) ++ opener :: inner ++ ln :: more) :: later
          /\ In (render (buf (run a init) ++ opener :: inner ++ ln :: more))
                (split_slides lines))
  /\ split_slides (split nl fence_example)
     = [join nl ["# A"; "```"; "code with ---"; "```"]; "# B"]
  /\ (forall json_loads py_int uuid5_of,
         exists s1 s2,
           Pipeline.parse_slides json_loads py_int uuid5_of fence_example
           = Ok [s1; s2]
           /\ contains "---" (Model.body s1) = true).
Proof.
  split; [|split].
  - intros lines a inner post opener ln f Hdoc Ha Hop Hin Hsep m.
    assert (Em : m = Machine (slides (run a init))
                             (buf (run a init) ++ opener :: inner) (CODE f)).
    { unfold m. rewrite run_app. simpl.
      rewrite (step_body_fence _ _ _ Ha Hop).
      rewrite (run_code_inner f); auto. simpl.
      now rewrite <- app_assoc. }
    assert (Hok : fence_ok m).
    { unfold fence_ok. rewrite Em. simpl. eauto using is_fence_token. }
    assert (Hst : state m = CODE f) by now rewrite Em.
    split; [exact Hst|]. split.
    + now apply step_code_separator.
    + assert (Hraw : exists more later,
                 raw_slides lines
                 = slides (run a init)
                   ++ (buf (run a init) ++ opener :: inner ++ ln :: more)
                   :: later).
      { unfold raw_slides. rewrite Hdoc.
        replace (a ++ opener :: inner ++ ln :: post)
          with ((a ++ opener :: inner) ++ ln :: post)
          by now rewrite <- app_assoc.
        rewrite run_app. fold m. simpl.
        rewrite (step_code_separator m ln f Hok Hst Hsep).
        destruct (flush_run_buf post
                    (Machine (slides m) (buf m ++ [ln]) (CODE f)))
          as (more & later & E).
        { simpl. now destruct (buf m). }
        simpl in E. rewrite E, Em. simpl.
        exists more, later. repeat rewrite <- app_assoc. reflexivity. }
      destruct Hraw as (more & later & Hraw).
      exists more, later. split; [exact Hraw|].
      apply (fenced_buffer_is_rendered lines _ opener f); [| |exact Hop].
      * rewrite Hraw. apply in_or_app. right. now left.
      * apply in_or_app. right. now left.
  - vm_compute. reflexivity.
  - intros json_loads py_int uuid5_of. eexists. eexists.
    split; [vm_compute; reflexivity|]. vm_compute. reflexivity.
Qed.

Lemma separator_inside_fence_never_splits_witness :
  exists more later,
    raw_slides fenced_separator_lines
    = (["# A"; "```"; "---"] ++ more) :: later
    /\ In (render (["# A"; "```"; "---"] ++ more))
          (split_slides fenced_separator_lines).
Proof.
  destruct (proj1 separator_inside_fence_never_splits
              fenced_separator_lines
              ["# A"] [] ["```"; "---"; "# B"] "```" "---" "```")
    as (_ & _ & more & later & E & Hin).
  - reflexivity.
  - reflexivity.
  - reflexivity.
  - constructor.
  - reflexivity.
  - exists more, later. split; [exact E | exact Hin].
Defined.

End SplitterSpec.

Module FrontmatterSpec.
Import Py Json Model Splitter Pipeline Analyzer.
Import Spec Examples.

Lemma skip_without_separator (rest : list string) (i : nat) :
  Forall (fun l => strip l <> separator) rest ->
  skip_to_separator rest i = (i + List.length rest)%nat.
Proof.
  intros H. revert i. induction H as [|l rest Hl _ IH]; intros i; simpl.
  - lia.
  - destruct (strip l =? separator) eqn:E.
    + apply String.eqb_eq in E. contradiction.
    + rewrite IH. lia.
Qed.

Lemma unterminated_frontmatter_drops_all (l0 : string) (rest : list string) :
  strip l0 = separator ->
  Forall (fun l => strip l <> separator) rest ->
  split_slides (l0 :: rest) = [].
Proof.
  intros H0 Hrest. unfold split_slides, raw_slides, body_start.
  rewrite H0, String.eqb_refl, (skip_without_separator rest 1 Hrest).
  rewrite skipn_all2 by (simpl; lia). reflexivity.
Qed.

(** The response for a deck without slides. *)
Lemma analyze_no_slides (cfg : Dict.t json) (cache : Cache)
      (names : list string) (threshold : json) :
  bucket_names cfg = Ok names ->
  getitem (JDict cfg) "threshold" = Ok threshold ->
  exists summary,
    analyze_slides cfg [] cache = (Ok (mkReport [] summary), cache)
    /\ Dict.get summary "total_slides" = Some (JInt 0).
Proof.
  intros Hn Ht. unfold analyze_slides. simpl. unfold summarize.
  rewrite Hn. unfold bind at 1. rewrite Ht. simpl.
  eexists. split; reflexivity.
Qed.

(** C10.  When the first line of a document trims to the separator marker
    and no later line does, the whole document is skipped as an
    unterminated frontmatter block: [split_slides] returns the empty list,
    [parse_slides] returns no slide, and the analyze operation answers
    with a report of zero slides, not with an error, and leaves the cache
    as it was. *)
Theorem unterminated_frontmatter_yields_no_slides
        (json_loads : string -> option json) (py_int : string -> Z -> option Z)
        (uuid5_of : string -> string)
        (document l0 : string) (rest : list string)
        (config : json) (cfg : Dict.t json) (names : list string)
        (threshold : json) (cache : Cache) :
  split nl document = l0 :: rest ->
  strip l0 = separator ->
  Forall (fun l => strip l <> separator) rest ->
  deep_merge (Config.clone_dict Config.DEFAULTS) config = Ok cfg ->
  bucket_names cfg = Ok names ->
  getitem (JDict cfg) "threshold" = Ok threshold ->
  split_slides (split nl document) = []
  /\ parse_slides json_loads py_int uuid5_of document = Ok []
  /\ exists summary,
      handle_analyze json_loads py_int uuid5_of document config cache
      = (Ok (mkReport [] summary), cache)
      /\ Dict.get summary "total_slides" = Some (JInt 0).
Proof.
  intros Hdoc H0 Hrest Hcfg Hn Ht.
  assert (Hs : split_slides (split nl document) = []).
  { rewrite Hdoc. now apply unterminated_frontmatter_drops_all. }
  assert (Hp : parse_slides json_loads py_int uuid5_of document = Ok []).
  { unfold parse_slides. now rewrite Hs. }
  split; [exact Hs|]. split; [exact Hp|].
  unfold handle_analyze. rewrite Hcfg. unfold bind at 1. rewrite Hp.
  unfold bind. eapply analyze_no_slides; eauto.
Qed.

Lemma unterminated_frontmatter_yields_no_slides_witness :
  split_slides (split nl unterminated_doc) = []
  /\ parse_slides no_json no_int tagged unterminated_doc = Ok []
  /\ exists summary,
      handle_analyze no_json no_int tagged unterminated_doc (JDict []) []
      = (Ok (mkReport [] summary), [])
      /\ Dict.get summary "total_slides" = Some (JInt 0).
Proof.
  apply (unterminated_frontmatter_yields_no_slides
           no_json no_int tagged unterminated_doc
           "---" ["title: Deck"; "# Intro"; "Text"]
           (JDict []) (Config.clone_dict Config.DEFAULTS)
           ["a11y"; "code"; "color"; "content"; "layout"] (JInt 70) []).
  - reflexivity.
  - reflexivity.
  - repeat constructor; discriminate.
  - reflexivity.
  - reflexivity.
  - reflexivity.
Defined.

End FrontmatterSpec.

(* ====================================================================== *)
(** * Properties of the rules and of the scoring engine *)
(* ====================================================================== *)

Module EngineFacts.
Import Py Json Model Config Rules Engine Spec.
Local Open Scope Z_scope.

Lemma bind_ok {A B : Type} (r : result A) (k : A -> result B) (b : B) :
  bind r k = Ok b -> exists a, r = Ok a /\ k a = Ok b.
Proof. destruct r as [a|e]; simpl; [eauto | discriminate]. Qed.

Lemma Ok_inj {A : Type} (a b : A) : Ok a = Ok b -> a = b.
Proof. intros H. now injection H. Qed.

Ltac bind_inv H :=
  let a := fresh "a" in
  let Ha := fresh "Ha" in
  apply bind_ok in H; destruct H as (a & Ha & H).

(** ** The overall score *)

Lemma total_deduction_from (diags : list Finding) (acc : Z) :
  fold_left (fun a f => a + Z.max 0 (deduction f)) diags acc
  = acc + total_deduction diags.
Proof.
  unfold total_deduction. revert acc.
  induction diags as [|f diags IH]; intros acc; simpl; [lia|].
  rewrite IH, (IH (Z.max 0 (deduction f))). lia.
Qed.

Lemma total_deduction_cons (f : Finding) (diags : list Finding) :
  total_deduction (f :: diags) = Z.max 0 (deduction f) + total_deduction diags.
Proof.
  unfold total_deduction at 1. simpl. now rewrite total_deduction_from.
Qed.

Lemma total_deduction_nonneg (diags : list Finding) :
  0 <= total_deduction diags.
Proof.
  induction diags as [|f diags IH]; [unfold total_deduction; simpl; lia|].
  rewrite total_deduction_cons. lia.
Qed.

Lemma total_score_range (diags : list Finding) :
  0 <= total_score diags <= 100.
Proof. unfold total_score. lia. Qed.

(** ** Bucket scores *)

Lemma first_match_strs (r : string) (patterns : list string) :
  first_match r (map JStr patterns)
  = Ok (existsb (pattern_matches r) patterns).
Proof.
  induction patterns as [|p ps IH]; simpl; [reflexivity|].
  unfold pattern_matches at 1.
  destruct (endswith p "*").
  - destruct (startswith r (drop_last p)); [reflexivity | exact IH].
  - destruct (r =? p)%string; [reflexivity | exact IH].
Qed.

Lemma bucket_deduction_strs (patterns : list string) (diags : list Finding)
      (acc : Z) :
  bucket_deduction (strs patterns) diags acc
  = Ok (acc + total_deduction (matching patterns diags)).
Proof.
  revert acc. induction diags as [|f diags IH]; intros acc; simpl.
  - unfold total_deduction. simpl. f_equal. lia.
  - rewrite first_match_strs. simpl. rewrite IH.
    destruct (existsb (pattern_matches (rule f)) patterns); f_equal.
    rewrite total_deduction_cons. lia.
Qed.

Lemma total_deduction_plain (diags : list Finding) :
  Forall (fun f => 0 <= deduction f) diags ->
  total_deduction diags = sum_deductions diags.
Proof.
  induction 1 as [|f diags Hf _ IH]; [reflexivity|].
  rewrite total_deduction_cons, IH. simpl. lia.
Qed.

Lemma matching_nonneg (patterns : list string) (diags : list Finding) :
  Forall (fun f => 0 <= deduction f) diags ->
  Forall (fun f => 0 <= deduction f) (matching patterns diags).
Proof.
  intros H. apply Forall_forall. intros f Hin.
  apply filter_In in Hin. rewrite Forall_forall in H. now apply H.
Qed.

Lemma bucket_deduction_lower (patterns : json) (diags : list Finding)
      (acc d : Z) :
  bucket_deduction patterns diags acc = Ok d -> acc <= d.
Proof.
  revert acc. induction diags as [|f diags IH]; intros acc H; simpl in H.
  - apply Ok_inj in H. lia.
  - bind_inv H. bind_inv H. apply IH in H.
    match type of H with (if ?b then _ else _) <= _ => destruct b end;
      [clear - H; lia | exact H].
Qed.

Lemma bucket_score_range (patterns : json) (diags : list Finding) (v : Z) :
  bucket_score patterns diags = Ok v -> 0 <= v <= 100.
Proof.
  unfold bucket_score. intros H. bind_inv H. apply Ok_inj in H. subst v.
  apply bucket_deduction_lower in Ha. lia.
Qed.

Lemma dict_set_in_range (d : Dict.t Z) (k : string) (v : Z) :
  scores_in_range d -> in_range v -> scores_in_range (Dict.set d k v).
Proof.
  intros Hd Hv. induction Hd as [|[k' v'] d Hk Hd IH]; simpl.
  - constructor; [exact Hv | constructor].
  - destruct (k' =? k)%string; constructor; auto.
Qed.

Lemma score_buckets_in_range (items : list (string * json))
      (diags : list Finding) (d d' : Dict.t Z) :
  scores_in_range d -> score_buckets items diags d = Ok d' ->
  scores_in_range d'.
Proof.
  revert d. induction items as [|[name patterns] items IH]; intros d Hd H.
  - simpl in H. apply Ok_inj in H. now subst d'.
  - simpl in H. bind_inv H. eapply IH; [|exact H].
    apply dict_set_in_range; [exact Hd|].
    eapply bucket_score_range; eauto.
Qed.

Lemma run_rules_in_range (slide : Slide) (cfg : Dict.t json)
      (diags : list Finding) (total : Z) (buckets : Dict.t Z) :
  run_rules_on_slide slide cfg = Ok (diags, total, buckets) ->
  in_range total /\ scores_in_range buckets.
Proof.
  unfold run_rules_on_slide. intros H.
  bind_inv H. bind_inv H. bind_inv H. apply Ok_inj in H.
  injection H as <- <- <-.
  split; [apply total_score_range|].
  eapply score_buckets_in_range; [|exact Ha1]. constructor.
Qed.

Lemma evaluate_slide_in_range (dups : list (nat * list Finding))
      (cfg : Dict.t json) (slide : Slide) (r : SlideResult) :
  evaluate_slide dups cfg slide = Ok r ->
  in_range (score r) /\ scores_in_range (bucket_scores r).
Proof.
  unfold evaluate_slide. intros H.
  bind_inv H. destruct a as [[diags total] buckets].
  apply run_rules_in_range in Ha. destruct Ha as [Ht Hb].
  bind_inv H. destruct a as [[diags' total'] buckets'].
  apply Ok_inj in H. subst r. simpl.
  destruct (lookup Nat.eqb dups (index slide)) as [extra|].
  - bind_inv Ha. bind_inv Ha. apply Ok_inj in Ha.
    injection Ha as _ <- <-.
    split; [unfold in_range; lia|].
    eapply score_buckets_in_range; eauto.
  - apply Ok_inj in Ha. injection Ha as _ <- <-. auto.
Qed.

Lemma map_result_forall {A B : Type} (f : A -> result B) (P : B -> Prop)
      (l : list A) (rs : list B) :
  (forall a b, f a = Ok b -> P b) ->
  map_result f l = Ok rs -> Forall P rs.
Proof.
  intros Hf. revert rs. induction l as [|a l IH]; intros rs H; simpl in H.
  - apply Ok_inj in H. subst rs. constructor.
  - bind_inv H. bind_inv H. apply Ok_inj in H. subst rs.
    constructor; eauto.
Qed.

End EngineFacts.

Module EngineSpec.
Import Py Json Model Config Rules Engine Spec Examples EngineFacts.
Local Open Scope Z_scope.

(** C4.  For every slide and every finding set, also one whose deductions
    sum past 100, the overall score and every bucket score lie between 0
    and 100: for the two scoring functions, for what [run_rules_on_slide]
    returns and for every result of [evaluate_all]. *)
Theorem scores_stay_within_bounds :
  (forall diags : list Finding, in_range (total_score diags))
  /\ (forall (patterns : json) (diags : list Finding) (v : Z),
         bucket_score patterns diags = Ok v -> in_range v)
  /\ (forall (slide : Slide) (cfg : Dict.t json) (diags : list Finding)
             (total : Z) (buckets : Dict.t Z),
         run_rules_on_slide slide cfg = Ok (diags, total, buckets) ->
         in_range total /\ scores_in_range buckets)
  /\ (forall (slides : list Slide) (cfg : Dict.t json)
             (results : list SlideResult),
         evaluate_all slides cfg = Ok results ->
         Forall (fun r => in_range (score r)
                          /\ scores_in_range (bucket_scores r)) results).
Proof.
  split; [|split; [|split]].
  - exact total_score_range.
  - exact bucket_score_range.
  - exact run_rules_in_range.
  - intros slides cfg results H. unfold evaluate_all in H.
    eapply map_result_forall; [|exact H].
    intros a b. apply evaluate_slide_in_range.
Qed.

Lemma scores_stay_within_bounds_witness :
  exists results,
    evaluate_all [untitled_slide] heavy_config = Ok results
    /\ map score results = [0]
    /\ Forall (fun r => in_range (score r)
                        /\ scores_in_range (bucket_scores r)) results.
Proof.
  eexists. split; [vm_compute; reflexivity|].
  split; [reflexivity|].
  apply (proj2 (proj2 (proj2 scores_stay_within_bounds))
               [untitled_slide] heavy_config).
  vm_compute. reflexivity.
Defined.

(** C7.  The score of a bucket is 100 minus the deductions of the findings
    that match one of its patterns at least, clamped to 0..100; a finding
    that several patterns match counts once, the loop over the patterns
    ending at the first that matches. *)
Theorem bucket_score_counts_each_finding_once :
  (forall (patterns : list string) (diags : list Finding),
      bucket_score (strs patterns) diags
      = Ok (clamp (100 - total_deduction (matching patterns diags)) 0 100))
  /\ (forall (patterns : list string) (diags : list Finding),
         Forall (fun f => 0 <= deduction f) diags ->
         bucket_score (strs patterns) diags
         = Ok (clamp (100 - sum_deductions (matching patterns diags)) 0 100))
  /\ (forall (r p : string) (rest : list json),
         pattern_matches r p = true ->
         first_match r (JStr p :: rest) = Ok true)
  /\ bucket_score (strs ["title/*"; "title/required"])
                  [finding "title/required" "error" "Slide missing title" 20]
     = Ok 80.
Proof.
  assert (G : forall patterns diags,
             bucket_score (strs patterns) diags
             = Ok (clamp (100 - total_deduction (matching patterns diags))
                         0 100)).
  { intros patterns diags. unfold bucket_score.
    rewrite bucket_deduction_strs. unfold bind. f_equal. unfold clamp.
    pose proof (total_deduction_nonneg (matching patterns diags)). lia. }
  split; [exact G|]. split; [|split].
  - intros patterns diags H. rewrite G.
    now rewrite (total_deduction_plain _ (matching_nonneg patterns diags H)).
  - intros r p rest H. unfold pattern_matches in H. simpl.
    destruct (endswith p "*"); now rewrite H.
  - vm_compute. reflexivity.
Qed.

Lemma bucket_score_counts_each_finding_once_witness :
  bucket_score (strs ["title/*"; "title/required"; "lines/*"])
               [finding "title/required" "error" "Slide missing title" 20;
                finding "code/too_long" "warning" "long" 8;
                finding "lines/too_many" "warning" "many" 10]
  = Ok 70.
Proof.
  rewrite (proj1 (proj2 bucket_score_counts_each_finding_once)).
  - reflexivity.
  - repeat constructor; simpl; lia.
Defined.

End EngineSpec.

Module ColorSpec.
Import Py Json Model Config Rules Spec Examples.

(** The comparison of binary64 values is irreflexive. *)
Lemma SFcompare_refl_not_lt (x : spec_float) : SFcompare x x <> Some Lt.
Proof.
  destruct x as [s|s| |s m e]; simpl; try destruct s; try discriminate.
  - rewrite Z.compare_refl, Pos.compare_cont_refl. discriminate.
  - rewrite Z.compare_refl, Pos.compare_cont_refl. discriminate.
Qed.

Lemma ltb_irrefl (x : float) : (x <? x)%float = false.
Proof.
  rewrite ltb_spec. unfold SFltb.
  pose proof (SFcompare_refl_not_lt (Prim2SF x)) as H.
  destruct (SFcompare (Prim2SF x) (Prim2SF x)) as [[| |]|]; congruence.
Qed.

(** C5.  For a slide with a minimum contrast (one parsed colour at least)
    on which color/low_contrast is not disabled: below the error threshold
    the rule emits one error finding with the configured deduction;
    otherwise, below the warn threshold, one warning finding with the
    deduction halved, rounded down; otherwise nothing.  The comparison is
    strict: a minimum contrast equal to the error threshold does not give
    the error finding. *)
Theorem low_contrast_bands
        (s : Slide) (cfg : Dict.t json) (mc warn err : float) (w : Z) :
  min_contrast (metrics s) = Some mc ->
  enabled low_contrast_id s = true ->
  rule_param cfg "color" "min_contrast_warn" = Ok (JFloat warn) ->
  rule_param cfg "color" "min_contrast_error" = Ok (JFloat err) ->
  weight cfg low_contrast_id = Ok w ->
  check ColorLowContrast s cfg
  = Ok (if (mc <? err)%float then [error_finding mc err w]
        else if (mc <? warn)%float then [warning_finding mc warn w]
        else [])
  /\ (mc = err ->
      check ColorLowContrast s cfg
      = Ok (if (mc <? warn)%float then [warning_finding mc warn w] else [])).
Proof.
  intros Hmc Hen Hwarn Herr Hw.
  assert (E : check ColorLowContrast s cfg
              = Ok (if (mc <? err)%float then [error_finding mc err w]
                    else if (mc <? warn)%float then [warning_finding mc warn w]
                    else [])).
  { unfold ColorLowContrast, check.
    fold low_contrast_id. rewrite Hwarn, Herr. unfold bind at 1 2.
    rewrite Hmc, Hen. unfold negb, as_threshold, bind at 1.
    destruct (mc <? err)%float.
    - rewrite Hw. reflexivity.
    - unfold bind at 1. destruct (mc <? warn)%float.
      + rewrite Hw. reflexivity.
      + reflexivity. }
  split; [exact E|].
  intros ->. rewrite E, ltb_irrefl. reflexivity.
Qed.

(** The light grey slide under an error threshold equal to its contrast:
    the warning, at half of the weight 10. *)
Lemma low_contrast_bands_witness :
  check ColorLowContrast light_grey_slide boundary_config
  = Ok [finding "color/low_contrast" "warning"
          "Contrast 1.47 below recommended 4.50 (increase for better readability)"
          5].
Proof.
  rewrite (proj2 (low_contrast_bands light_grey_slide boundary_config
                    (Color.contrast_ratio light_grey Color.white)
                    4.5%float
                    (Color.contrast_ratio light_grey Color.white) 10
                    eq_refl eq_refl eq_refl eq_refl eq_refl) eq_refl).
  vm_compute. reflexivity.
Defined.

(** The minimum contrast is present exactly when a colour was parsed. *)
Lemma min_contrast_iff_colors (py_int : string -> Z -> option Z)
      (m : Metrics) :
  min_contrast m = None ->
  (colors m <> [] <->
   exists mc, min_contrast (Scanner.finish_colors m) = Some mc).
Proof.
  intros Hm. unfold Scanner.finish_colors.
  destruct (colors m) as [|c cs]; simpl.
  - rewrite Hm. split; [congruence | intros [mc H]; discriminate].
  - split; [eauto | discriminate].
Qed.

(** C6.  The contrast ratio the code computes for RGB (170,170,170)
    against white is 1.4651162790697674, printed 1.47; it is not within
    rounding distance of 2.32.  It is below the default error threshold
    3.0, so the rule reports an error for a slide with this only colour. *)
Theorem contrast_of_light_grey :
  Color.contrast_ratio light_grey Color.white = 1.4651162790697674%float
  /\ Color.format_2f (Color.contrast_ratio light_grey Color.white) = "1.47"
  /\ (Color.contrast_ratio light_grey Color.white <? 2.315)%float = true
  /\ (Color.contrast_ratio light_grey Color.white <? 3.0)%float = true
  /\ check ColorLowContrast light_grey_slide DEFAULTS
     = Ok [finding "color/low_contrast" "error"
             "Contrast 1.47 below minimum 3.00 (use darker/lighter colors)"
             10].
Proof. repeat split; vm_compute; reflexivity. Qed.

End ColorSpec.

(* ====================================================================== *)
(** * Properties of the override parser and of the scanner *)
(* ====================================================================== *)

Module ParserSpec.
Import Py Json Model Parser Scanner Pipeline Analyzer.
Import Spec Examples.





(** C8.  What the code does on a disable directive that names no rule:
    the unpacking of [content.split(None, 1)] raises ValueError, which
    leaves [parse_inline_overrides] and [parse_slides] and makes the
    analyze operation answer with an error, whatever [json.loads] does. *)
Theorem bare_disable_directive_raises
        (json_loads : string -> option json) (py_int : string -> Z -> option Z)
        (uuid5_of : string -> string) (cache : Cache) :
  parse_inline_overrides json_loads ["# T"; "<!-- slidegauge: disable -->"]
  = Raise ValueError
  /\ parse_slides json_loads py_int uuid5_of bare_disable_doc
     = Raise ValueError
  /\ handle_analyze json_loads py_int uuid5_of bare_disable_doc (JDict [])
                    cache
     = (Raise ValueError, cache).
Proof. repeat split; vm_compute; reflexivity. Qed.

(** A line with a Markdown link to an http address is never counted,
    whatever else it holds. *)
Lemma markdown_link_masks_line (line : string) :
  Regex.search markdown_link_re line = true -> bare_url_line line = false.
Proof.
  intros H. unfold bare_url_line. rewrite H.
  now destruct (Regex.search url_re line).
Qed.

(** C9.  What the code does on a line that holds a Markdown link and a
    separate bare address: the line is not counted, and the slide's
    bare-URL count stays 0; the bare address alone is counted. *)
Theorem wrapped_link_hides_bare_url (py_int : string -> Z -> option Z) :
  bare_url_line "[docs](https://a.io) see https://b.io" = false
  /\ bare_url_line "see https://b.io" = true
  /\ exists m,
      scan_slide py_int mixed_links_doc Config.DEFAULTS = Ok m
      /\ bare_urls m = 0%Z.
Proof.
  split; [vm_compute; reflexivity|].
  split; [vm_compute; reflexivity|].
  eexists. split; [vm_compute; reflexivity|]. reflexivity.
Qed.

End ParserSpec.

(* ====================================================================== *)
(** * Properties of the cache and of the analyze operation *)
(* ====================================================================== *)

Module DictFacts.
Import Spec.

Lemma get_set_same {V : Type} (d : Dict.t V) (k : string) (v : V) :
  Dict.get (Dict.set d k v) k = Some v.
Proof.
  induction d as [|[k' v'] d IH]; simpl.
  - now rewrite String.eqb_refl.
  - destruct (k' =? k)%string eqn:E; simpl; rewrite E; auto.
Qed.

Lemma get_set_other {V : Type} (d : Dict.t V) (k k' : string) (v : V) :
  k <> k' -> Dict.get (Dict.set d k v) k' = Dict.get d k'.
Proof.
  intros Hne. induction d as [|[k0 v0] d IH]; simpl.
  - destruct (k =? k')%string eqn:E; [|reflexivity].
    apply String.eqb_eq in E. contradiction.
  - destruct (k0 =? k)%string eqn:E; simpl.
    + apply String.eqb_eq in E. subst k0.
      destruct (k =? k')%string eqn:E'; [|reflexivity].
      apply String.eqb_eq in E'. contradiction.
    + destruct (k0 =? k')%string; auto.
Qed.

Section PutAll.

Context {A V : Type}.
Variable key : A -> string.
Variable val : A -> V.

Lemma put_all_other (l : list A) (d : Dict.t V) (k : string) :
  ~ In k (map key l) -> Dict.get (put_all key val l d) k = Dict.get d k.
Proof.
  revert d. induction l as [|a l IH]; intros d Hk; simpl; [reflexivity|].
  rewrite IH by (intros H; apply Hk; now right).
  apply get_set_other. intros E. apply Hk. now left.
Qed.

Lemma put_all_in (l : list A) (d : Dict.t V) (a : A) :
  NoDup (map key l) -> In a l ->
  Dict.get (put_all key val l d) (key a) = Some (val a).
Proof.
  revert d. induction l as [|a0 l IH]; intros d Hnd Hin; [now elim Hin|].
  simpl in Hnd. inversion Hnd as [|? ? Hnotin Hnd']; subst. simpl.
  destruct Hin as [-> | Hin].
  - rewrite put_all_other by exact Hnotin. apply get_set_same.
  - now apply IH.
Qed.

Lemma find_unique (l : list A) (a : A) :
  NoDup (map key l) -> In a l ->
  find (fun x => (key x =? key a)%string) l = Some a.
Proof.
  induction l as [|a0 l IH]; intros Hnd Hin; [now elim Hin|].
  simpl in Hnd. inversion Hnd as [|? ? Hnotin Hnd']; subst. simpl.
  destruct Hin as [-> | Hin].
  - now rewrite String.eqb_refl.
  - destruct (key a0 =? key a)%string eqn:E; [|now apply IH].
    apply String.eqb_eq in E. elim Hnotin. rewrite E. now apply in_map.
Qed.

Lemma put_all_find (l : list A) (k : string) :
  NoDup (map key l) ->
  Dict.get (put_all key val l []) k
  = option_map val (find (fun x => (key x =? k)%string) l).
Proof.
  intros Hnd. destruct (in_dec string_dec k (map key l)) as [Hin | Hout].
  - apply in_map_iff in Hin. destruct Hin as (a & <- & Hin).
    now rewrite put_all_in, find_unique.
  - rewrite put_all_other by exact Hout. simpl.
    destruct (find (fun x => (key x =? k)%string) l) as [a|] eqn:E;
      [|reflexivity].
    apply find_some in E. destruct E as [Hin E].
    apply String.eqb_eq in E. elim Hout. rewrite <- E. now apply in_map.
Qed.

End PutAll.

Lemma flat_map_ext_in {A B : Type} (f g : A -> list B) (l : list A) :
  (forall a, In a l -> f a = g a) -> flat_map f l = flat_map g l.
Proof.
  induction l as [|a l IH]; intros H; simpl; [reflexivity|].
  rewrite (H a) by now left. rewrite IH; [reflexivity|].
  intros b Hb. apply H. now right.
Qed.

End DictFacts.

Module CacheFacts.
Import Py Json Model Engine Pipeline Analyzer.
Import Spec Examples EngineFacts DictFacts.

Lemma cached_results_get (slides : list Slide) (cache : Cache) (s : Slide) :
  NoDup (map uuid slides) -> In s slides ->
  Dict.get (get_cached_results slides cache) (uuid s)
  = Some (option_map (from_cache s) (Dict.get cache (uuid s))).
Proof.
  intros Hnd Hin.
  exact (put_all_in uuid
           (fun s => option_map (from_cache s) (Dict.get cache (uuid s)))
           slides [] s Hnd Hin).
Qed.

Lemma is_uncached_miss (slides : list Slide) (cache : Cache) (s : Slide) :
  NoDup (map uuid slides) -> In s slides ->
  is_uncached (get_cached_results slides cache) s = is_miss cache s.
Proof.
  intros Hnd Hin. unfold is_uncached, cached_result, is_miss, Dict.mem.
  rewrite cached_results_get by assumption.
  now destruct (Dict.get cache (uuid s)).
Qed.

Lemma uncached_slides_are_misses (slides : list Slide) (cache : Cache) :
  NoDup (map uuid slides) ->
  filter (is_uncached (get_cached_results slides cache)) slides
  = filter (is_miss cache) slides.
Proof.
  intros Hnd. apply filter_ext_in. intros s Hin.
  now apply is_uncached_miss.
Qed.

Lemma evaluate_slide_uuid (dups : list (nat * list Finding))
      (cfg : Dict.t json) (s : Slide) (r : SlideResult) :
  evaluate_slide dups cfg s = Ok r -> r_uuid r = uuid s.
Proof.
  unfold evaluate_slide. intros H.
  bind_inv H. destruct a as [[d t] b].
  bind_inv H. destruct a as [[d' t'] b'].
  apply Ok_inj in H. now subst r.
Qed.

Lemma map_result_map {A B C : Type} (f : A -> result B) (g : B -> C)
      (h : A -> C) (l : list A) (rs : list B) :
  (forall a b, f a = Ok b -> g b = h a) ->
  map_result f l = Ok rs -> map g rs = map h l.
Proof.
  intros Hf. revert rs. induction l as [|a l IH]; intros rs H; simpl in H.
  - apply Ok_inj in H. now subst rs.
  - bind_inv H. bind_inv H. apply Ok_inj in H. subst rs. simpl.
    f_equal; eauto.
Qed.

Lemma evaluate_all_uuids (slides : list Slide) (cfg : Dict.t json)
      (results : list SlideResult) :
  evaluate_all slides cfg = Ok results ->
  map r_uuid results = map uuid slides.
Proof.
  unfold evaluate_all. apply map_result_map.
  intros a b. apply evaluate_slide_uuid.
Qed.

Lemma store_other (m : Dict.t SlideResult) (l : list Slide)
      (st : Cache * Dict.t (option SlideResult)) (k : string) :
  ~ In k (map uuid l) ->
  Dict.get (snd (fold_left (store_step m) l st)) k = Dict.get (snd st) k.
Proof.
  revert st. induction l as [|s l IH]; intros st Hk; simpl; [reflexivity|].
  rewrite IH by (intros H; apply Hk; now right).
  destruct st as [c cd]. simpl.
  destruct (Dict.get m (uuid s)); simpl; [|reflexivity].
  apply get_set_other. intros E. apply Hk. now left.
Qed.

Lemma store_in (m : Dict.t SlideResult) (l : list Slide)
      (st : Cache * Dict.t (option SlideResult)) (s : Slide)
      (r : SlideResult) :
  NoDup (map uuid l) -> In s l -> Dict.get m (uuid s) = Some r ->
  Dict.get (snd (fold_left (store_step m) l st)) (uuid s) = Some (Some r).
Proof.
  revert st. induction l as [|s0 l IH]; intros st Hnd Hin Hm;
    [now elim Hin|].
  simpl in Hnd. inversion Hnd as [|? ? Hnotin Hnd']; subst. simpl.
  destruct Hin as [-> | Hin].
  - rewrite store_other by exact Hnotin.
    destruct st as [c cd]. simpl. rewrite Hm. simpl. apply get_set_same.
  - now apply IH.
Qed.

Lemma store_results_fold (new_results : list SlideResult)
      (l : list Slide) (st : Cache * Dict.t (option SlideResult)) :
  store_results new_results l st
  = fold_left (store_step (put_all r_uuid (fun r => r) new_results [])) l st.
Proof.
  unfold store_results.
  change (fold_left (fun m r => Dict.set m (r_uuid r) r) new_results [])
    with (put_all r_uuid (fun r : SlideResult => r) new_results []).
  generalize (put_all r_uuid (fun r : SlideResult => r) new_results []).
  intros m. revert st. induction l as [|s l IH]; intros st; [reflexivity|].
  simpl. rewrite IH. now destruct st.
Qed.

Lemma NoDup_map_filter {A B : Type} (f : A -> B) (p : A -> bool)
      (l : list A) :
  NoDup (map f l) -> NoDup (map f (filter p l)).
Proof.
  induction l as [|a l IH]; intros H; simpl; [constructor|].
  simpl in H. inversion H as [|? ? Hnotin Hnd]; subst.
  destruct (p a); simpl; [|auto].
  constructor; [|auto].
  intros Hin. apply Hnotin. apply in_map_iff in Hin.
  destruct Hin as (x & E & Hx). apply filter_In in Hx.
  rewrite <- E. apply in_map. tauto.
Qed.

End CacheFacts.

Module CacheClaims.
Import Py Json Model Engine Pipeline Analyzer.
Import Spec Examples EngineFacts DictFacts CacheFacts.

Lemma served_matches_store (slides : list Slide) (cache : Cache)
      (cfg : Dict.t json) (new_results : list SlideResult) (s : Slide) :
  NoDup (map uuid slides) ->
  evaluate_all (filter (is_miss cache) slides) cfg = Ok new_results ->
  In s slides ->
  match cached_result
          (snd (store_results new_results (filter (is_miss cache) slides)
                              (cache, get_cached_results slides cache))) s with
  | Some r => [r]
  | None => []
  end
  = served cache new_results s.
Proof.
  intros Hnd Hev Hin.
  set (U := filter (is_miss cache) slides) in *.
  pose proof (evaluate_all_uuids _ _ _ Hev) as Hids.
  pose proof (NoDup_map_filter uuid (is_miss cache) slides Hnd) as HndU.
  fold U in HndU.
  rewrite store_results_fold. unfold cached_result, served.
  destruct (Dict.get cache (uuid s)) as [e|] eqn:Ec.
  - rewrite store_other.
    + simpl. rewrite cached_results_get by assumption. now rewrite Ec.
    + intros Hk. apply in_map_iff in Hk. destruct Hk as (s' & E & Hs').
      apply filter_In in Hs'. destruct Hs' as [_ Hm].
      unfold is_miss, Dict.mem in Hm. rewrite E, Ec in Hm. discriminate.
  - assert (HsU : In s U).
    { apply filter_In. split; [exact Hin|].
      unfold is_miss, Dict.mem. now rewrite Ec. }
    assert (Hr : exists r, In r new_results /\ r_uuid r = uuid s).
    { assert (Hk : In (uuid s) (map r_uuid new_results)).
      { rewrite Hids. now apply in_map. }
      apply in_map_iff in Hk. destruct Hk as (r & E & Hr). eauto. }
    destruct Hr as (r & Hr & Er).
    assert (Hnr : NoDup (map r_uuid new_results)) by now rewrite Hids.
    assert (Hf : find (fun x => (r_uuid x =? uuid s)%string) new_results
                 = Some r).
    { rewrite <- Er. now apply find_unique. }
    rewrite (store_in _ U _ s r HndU HsU).
    + now rewrite Hf.
    + rewrite put_all_find by exact Hnr. now rewrite Hf.
Qed.

(** What the analyze operation does over slides with distinct
    identities: the slides whose identity is in the cache are served their
    cached findings, score and bucket scores as they are, and
    [evaluate_all], with its duplicate-title pass, runs on the list of the
    other slides alone; the report holds, slide by slide, the cached
    result or the one just computed. *)
Theorem duplicate_pass_sees_cache_misses_only
        (cfg : Dict.t json) (slides : list Slide) (cache cache' : Cache)
        (report : Report) :
  NoDup (map uuid slides) ->
  analyze_slides cfg slides cache = (Ok report, cache') ->
  exists new_results,
    evaluate_all (filter (is_miss cache) slides) cfg = Ok new_results
    /\ rep_slides report = flat_map (served cache new_results) slides.
Proof.
  intros Hnd H. unfold analyze_slides in H.
  rewrite (uncached_slides_are_misses slides cache Hnd) in H.
  assert (Hev : exists new_results,
             evaluate_all (filter (is_miss cache) slides) cfg = Ok new_results
             /\ exists summary,
                 report
                 = mkReport
                     (flat_map
                        (fun s =>
                           match cached_result
                                   (snd (store_results new_results
                                           (filter (is_miss cache) slides)
                                           (cache,
                                            get_cached_results slides cache)))
                                   s with
                           | Some r => [r]
                           | None => []
                           end) slides) summary).
  { destruct (filter (is_miss cache) slides) as [|u U] eqn:EU.
    - exists []. split; [reflexivity|].
      cbv beta iota in H. unfold bind in H.
      destruct (summarize cfg (List.length slides) _) as [summary|e] eqn:Es;
        [|discriminate].
      exists summary. now injection H as <- _.
    - destruct (evaluate_all (u :: U) cfg) as [nr|e] eqn:Ee;
        unfold bind in H; cbv beta iota in H; [|discriminate].
      exists nr. split; [reflexivity|].
      destruct (store_results nr (u :: U) _) as [c' cd'] eqn:Est.
      destruct (summarize cfg (List.length slides) _) as [summary|e] eqn:Es;
        [|discriminate].
      exists summary. now injection H as <- _. }
  destruct Hev as (nr & Hev & summary & ->).
  exists nr. split; [exact Hev|]. simpl.
  apply DictFacts.flat_map_ext_in. intros s Hin.
  now apply (served_matches_store slides cache cfg).
Qed.

(** A deck of one slide is analyzed with an empty cache; then a second
    slide with the same title is added and the deck is analyzed against
    the cache of the first run.  The first slide is served from the cache
    and the second is a miss: neither result holds a
    structure/duplicate_titles finding. *)
Lemma cached_slide_hides_duplicate_title :
  exists report1 cache1 report2 cache2,
    handle_analyze no_json no_int tagged first_deck (JDict []) []
    = (Ok report1, cache1)
    /\ handle_analyze no_json no_int tagged second_deck (JDict []) cache1
       = (Ok report2, cache2)
    /\ Dict.mem cache1 (tagged first_deck) = true
    /\ titles_and_rules report2
       = [("Same", ["content/too_short"]); ("Same", ["content/too_short"])].
Proof.
  do 4 eexists.
  split; [vm_compute; reflexivity|].
  split; [vm_compute; reflexivity|].
  split; vm_compute; reflexivity.
Qed.

Lemma duplicate_pass_sees_cache_misses_only_witness :
  exists report cache' new_results,
    analyze_slides Config.DEFAULTS [slide_alpha; slide_beta] alpha_cache
    = (Ok report, cache')
    /\ evaluate_all [slide_beta] Config.DEFAULTS = Ok new_results
    /\ rep_slides report
       = flat_map (served alpha_cache new_results) [slide_alpha; slide_beta].
Proof.
  destruct (analyze_slides Config.DEFAULTS [slide_alpha; slide_beta]
                           alpha_cache) as [[report|e] cache'] eqn:E;
    [|vm_compute in E; discriminate].
  destruct (duplicate_pass_sees_cache_misses_only
              Config.DEFAULTS [slide_alpha; slide_beta] alpha_cache cache'
              report) as (nr & Hev & Hrep).
  - repeat constructor; simpl; intuition discriminate.
  - exact E.
  - exists report, cache', nr. repeat split; assumption.
Defined.

(** C2.  What the code does when a title is shared across the cache
    boundary: the duplicate-title pass runs over the cache misses alone,
    so the findings of a deck depend on what the cache holds.  The deck of
    two slides titled Same gets the finding on both slides with an empty
    cache, and on neither when the first slide is in the cache; with a
    third slide of that title the two misses are told that the title is on
    2 slides; and the deck of the first slide alone, analyzed against the
    cache that the two-slide run left, is served the finding of that
    run. *)
Theorem cache_changes_duplicate_findings :
  exists cold cold_cache report1 cache1 warm cache2 three cache3 stale cache4,
    handle_analyze no_json no_int tagged second_deck (JDict []) []
    = (Ok cold, cold_cache)
    /\ duplicate_messages cold
       = [ ["Duplicate title 'Same' found on 2 slides"];
           ["Duplicate title 'Same' found on 2 slides"] ]
    /\ handle_analyze no_json no_int tagged first_deck (JDict []) []
       = (Ok report1, cache1)
    /\ handle_analyze no_json no_int tagged second_deck (JDict []) cache1
       = (Ok warm, cache2)
    /\ duplicate_messages warm = [ []; [] ]
    /\ handle_analyze no_json no_int tagged third_deck (JDict []) cache1
       = (Ok three, cache3)
    /\ duplicate_messages three
       = [ [];
           ["Duplicate title 'Same' found on 2 slides"];
           ["Duplicate title 'Same' found on 2 slides"] ]
    /\ handle_analyze no_json no_int tagged first_deck (JDict []) cold_cache
       = (Ok stale, cache4)
    /\ duplicate_messages stale
       = [ ["Duplicate title 'Same' found on 2 slides"] ].
Proof.
  do 10 eexists.
  split; [vm_compute; reflexivity|].
  split; [reflexivity|].
  split; [vm_compute; reflexivity|].
  split; [vm_compute; reflexivity|].
  split; [reflexivity|].
  split; [vm_compute; reflexivity|].
  split; [reflexivity|].
  split; [vm_compute; reflexivity|].
  reflexivity.
Qed.

End CacheClaims.

Module DuplicateSpec.
Import Py Json Model Config Engine Parser Pipeline.
Import Spec Examples.

(** C3.  What the code does when a slide with a duplicated title carries
    an inline patch that adds a bucket: the duplicate-title finding is
    attached and the overall score and the buckets of the global
    configuration are recomputed, but the bucket the patch added keeps the
    score it had before the finding was attached (100), while its pattern
    matches the finding (95 over the final findings). *)
Theorem patched_bucket_is_not_recomputed :
  exists s1 s2 r1 r2,
    parse_slides patch_json no_int tagged patched_deck = Ok [s1; s2]
    /\ rules (overrides s1) = [("buckets", JDict [("extra", strs ["structure/*"])])]
    /\ evaluate_all [s1; s2] (clone_dict DEFAULTS) = Ok [r1; r2]
    /\ map rule (diagnostics r1) = ["structure/duplicate_titles"]
    /\ score r1 = 95%Z
    /\ bucket_scores r1
       = [("a11y", 100); ("code", 100); ("color", 100); ("content", 95);
          ("layout", 95); ("extra", 100)]%Z
    /\ bucket_score (strs ["structure/*"]) (diagnostics r1) = Ok 95%Z.
Proof.
  do 4 eexists.
  split; [vm_compute; reflexivity|].
  split; [reflexivity|].
  split; [vm_compute; reflexivity|].
  repeat split; vm_compute; reflexivity.
Qed.

End DuplicateSpec.

Module DuplicateFacts.
Import Py Json Model Config Rules Engine.
Import Spec EngineFacts.

Section Appending.

Context {K V : Type}.
Variable eqb : K -> K -> bool.
Hypothesis eqb_eq : forall a b, eqb a b = true <-> a = b.

Lemma eqb_refl (a : K) : eqb a a = true.
Proof. now apply eqb_eq. Qed.







End Appending.





(** ** The first loop: the indices per title *)






(** ** The second loop: the findings per index *)









End DuplicateFacts.

Module SortFacts.
Import Py Model Engine Spec.









End SortFacts.

Module RuleFacts.
Import Py Json Model Config Rules Engine Spec EngineFacts.
Local Open Scope Z_scope.








End RuleFacts.

Module DuplicatePass.
Import Py Json Model Config Rules Engine Spec EngineFacts.
Local Open Scope Z_scope.





End DuplicatePass.

(* ====================================================================== *)
(** * Trimming, splitting and joining *)
(* ====================================================================== *)

Module StringFacts.
Import Py Props.












End StringFacts.

(* ====================================================================== *)
(** * Further properties of the splitter *)
(* ====================================================================== *)

Module SplitterProps.
Import Py Splitter Props StringFacts.









End SplitterProps.

(* ====================================================================== *)
(** * Further properties of the frontmatter and override parsers *)
(* ====================================================================== *)

Module ParserProps.
Import Py Json Model Parser Spec Props StringFacts EngineFacts.




(** ** [sorted(set(disabled))] *)


Lemma insert_unique_in (x y : string) (l : list string) :
  In y (insert_unique x l) <-> y = x \/ In y l.
Proof.
  induction l as [|z l IH]; cbn [insert_unique In]; [intuition|].
  destruct (String.compare x z) eqn:E; cbn [In].
  - apply String.compare_eq_iff in E. subst z. intuition.
  - intuition.
  - rewrite IH. intuition.
Qed.




Lemma sorted_set_in (l : list string) (y : string) :
  In y (sorted_set l) <-> In y l.
Proof.
  induction l as [|x l IH]; [reflexivity|].
  cbn [sorted_set fold_right In]. rewrite insert_unique_in.
  fold (sorted_set l). rewrite IH. intuition.
Qed.






End ParserProps.

(* ====================================================================== *)
(** * Further properties of the rules and of the scoring engine *)
(* ====================================================================== *)

Module RuleProps.
Import Py Json Model Config Rules Engine Spec Props EngineFacts.
Local Open Scope Z_scope.








End RuleProps.

Module ScoreProps.
Import Py Json Model Config Rules Engine Spec Props EngineFacts.
Local Open Scope Z_scope.






End ScoreProps.

Module EvaluateProps.
Import Py Json Model Config Rules Engine Spec Props EngineFacts.
Local Open Scope Z_scope.





End EvaluateProps.

(* ====================================================================== *)
(** * The default configuration *)
(* ====================================================================== *)

Module DefaultsProps.
Import Py Json Model Config Rules Engine Spec Props EngineFacts.
Local Open Scope Z_scope.















End DefaultsProps.

(* ====================================================================== *)
(** * Further properties of the feature scanner *)
(* ====================================================================== *)

Module ScannerProps.
Import Py Json Model Config Parser Scanner Spec Props StringFacts EngineFacts.
Local Open Scope Z_scope.

Section Scan.

Variable py_int : string -> Z -> option Z.















End Scan.



End ScannerProps.

(* ====================================================================== *)
(** * Further properties of [parse_slides] *)
(* ====================================================================== *)

Module PipelineProps.
Import Py Json Model Config Parser Scanner Pipeline Spec Props.
Import StringFacts EngineFacts.
Local Open Scope Z_scope.

Section Parse.

Variable json_loads : string -> option json.
Variable py_int : string -> Z -> option Z.
Variable uuid5_of : string -> string.






End Parse.



End PipelineProps.

(* ====================================================================== *)
(** * The lines of a trimmed text *)
(* ====================================================================== *)

Module LineFacts.
Import Py Props StringFacts.






Lemma nl_is_space : is_space nl = true.
Proof. reflexivity. Qed.










(** ** Lines without line feeds *)





End LineFacts.

(* ====================================================================== *)
(** * The bodies of the slides *)
(* ====================================================================== *)

Module BodyProps.
Import Py Json Model Config Parser Scanner Splitter Pipeline Spec Props.
Import StringFacts LineFacts EngineFacts.










Section Parse.

Variable json_loads : string -> option json.
Variable py_int : string -> Z -> option Z.
Variable uuid5_of : string -> string.








End Parse.



End BodyProps.

(* ====================================================================== *)
(** * Further properties of the cache *)
(* ====================================================================== *)

Module CacheProps.
Import Py Json Model Config Engine Analyzer Spec Props.
Import EngineFacts DictFacts CacheFacts.










End CacheProps.

(* ====================================================================== *)
(** * Further properties of the report *)
(* ====================================================================== *)

Module ReportProps.
Import Py Json Model Config Engine Analyzer Spec Props.
Import EngineFacts DictFacts CacheFacts.
Local Open Scope Z_scope.









End ReportProps.

(* ====================================================================== *)
(** * Properties of the SARIF report and of the protocol operations *)
(* ====================================================================== *)

Module ReportingProps.
Import Py Json Model Config Rules Engine Reporting Protocol Spec Props.
Import EngineFacts.
Local Open Scope Z_scope.




Section Slides.

Variable json_loads : string -> option json.
Variable py_int : string -> Z -> option Z.
Variable uuid5_of : string -> string.


End Slides.


End ReportingProps.

(* ====================================================================== *)
(** * Further properties of the configuration *)
(* ====================================================================== *)

Module ConfigProps.
Import Py Json Model Config Rules Engine Protocol Scanner Parser Spec Props.
Import EngineFacts DictFacts.
Local Open Scope Z_scope.

(** The bucket that the operation [rules] reports for a rule is the one
    bucket of the default configuration whose patterns match the
    identifier of the rule; the identifiers are distinct and each has a
    weight in the defaults. *)
Lemma declared_bucket_is_scored :
  exists table,
    bucket_items DEFAULTS = Ok (bucket_table table)
    /\ NoDup (map id REGISTRY)
    /\ Forall (fun r =>
                 In (rule_entry r) handle_rules
                 /\ buckets_of table (id r) = [bucket r]
                 /\ exists w, weight DEFAULTS (id r) = Ok w /\ 0 <= w)
              REGISTRY.
Proof.
  exists [ ("content", ["title/*"; "content/*"; "bullets/*"; "lines/*";
                        "structure/*"]);
           ("code", ["code/*"]);
           ("layout", ["meta/*"; "structure/*"]);
           ("a11y", ["accessibility/*"; "links/*"]);
           ("color", ["color/*"]) ].
  split; [reflexivity|]. split.
  - cbn. repeat constructor; cbn; intuition discriminate.
  - apply Forall_forall. intros r Hr.
    split; [unfold handle_rules; now apply in_map|].
    unfold REGISTRY in Hr. cbn [In] in Hr.
    repeat (destruct Hr as [<- | Hr]); [..|elim Hr];
      (split; [vm_compute; reflexivity|]);
      eexists; (split; [vm_compute; reflexivity | lia]).
Qed.

(** ** [deep_merge] *)






Section Colors.

Variable py_int : string -> Z -> option Z.


End Colors.




End ConfigProps.

(* ====================================================================== *)
(** * The analyze operation on a plain document *)
(* ====================================================================== *)

Module AnalyzeProps.
Import Py Json Model Config Parser Scanner Splitter Pipeline Engine Analyzer.
Import Spec Props StringFacts LineFacts EngineFacts.
Local Open Scope Z_scope.





Section Analyze.

Variable json_loads : string -> option json.
Variable py_int : string -> Z -> option Z.
Variable uuid5_of : string -> string.




End Analyze.


End AnalyzeProps.

(* ====================================================================== *)
(** * The division of [contrast_ratio] *)
(* ====================================================================== *)

Module DivisionProps.
Import Py Json Model Spec Props.
Local Open Scope Z_scope.








End DivisionProps.
